(** * Plasma GNOME Screenshot Bridge: a shallow embedding of [bridge.py]

    The bridge shells out to screenshot tools and talks to asyncio and
    dbus_next.  Everything outside [bridge.py] is an environment [Env]:
    which executables resolve, what a spawned command does, and whether a
    library call raises.  Effects are threaded through a small monad that
    carries the chronological list of observable events (log records,
    spawned commands, library calls) and can raise a Python exception. *)

From Stdlib Require Import ZArith List String Ascii Bool Lia Strings.Byte.
From Stdlib Require Import DecimalString Permutation Sorted.
Import ListNotations.
Open Scope string_scope.

(** ** Python values used by the module *)

(** Instances of [Exception] that reach the module's handlers.  Classes
    outside [Exception] (KeyboardInterrupt, SystemExit) are not modelled;
    [asyncio.CancelledError] is handled where the source handles it, in
    [stop_monitoring]. *)
Inductive exn : Type :=
| NotImplementedError
| OSError (msg : string)
| ValueError (msg : string)
| UnicodeDecodeError
| ProcessLookupError.

(** [str(e)] *)
Definition str_exn (e : exn) : string :=
  match e with
  | NotImplementedError => ""
  | OSError m => m
  | ValueError m => m
  | UnicodeDecodeError => "'utf-8' codec can't decode bytes"
  | ProcessLookupError => ""
  end.

(** [str(b)] for a bool, as an f-string renders it. *)
Definition str_bool (b : bool) : string := if b then "True" else "False".

(** [str(n)] for an int: decimal digits with a leading minus sign. *)
Definition str_int (n : Z) : string := NilZero.string_of_int (Z.to_int n).

Inductive level : Type := DEBUG | INFO | WARNING | ERROR.

(** Calls into asyncio and dbus_next made by the monitor and the bridge. *)
Inductive call : Type :=
| BusNew
| BusConnect
| BusExport (path iface : string)
| BusRequestName (name : string)
| BusDisconnect
| SpawnExec (cmd : list string)
| CreateTask
| TaskCancel
| TaskAwait
| ProcTerminate
| ProcWait.

Inductive event : Type :=
| Log (lvl : level) (msg : string)
| Run (cmd : list string)
| Lib (c : call).

Definition trace := list event.

(** What [subprocess.run(cmd, capture_output=True)] does: the child ran and
    left a return code, or the call raised (tool missing, bad argument). *)
Inductive run_result : Type :=
| Completed (returncode : Z)
| RunRaises (e : exn).

(** The environment of one execution.  [which] and [run] are the file
    system and the tools as they are for the duration of a call;
    [lib_raises] tells, from the events so far, whether a library call
    raises; [now] is the wall clock read after the events so far. *)
Record Env : Type := {
  which : string -> bool;
  run : list string -> run_result;
  lib_raises : trace -> call -> option exn;
  now : trace -> Z
}.

(** ** The effect monad *)

Inductive outcome (A : Type) : Type :=
| Ok (a : A)
| Raise (e : exn).
Arguments Ok {A} a.
Arguments Raise {A} e.

Definition M (A : Type) : Type := trace -> outcome A * trace.

Definition ret {A} (a : A) : M A := fun t => (Ok a, t).

Definition bind {A B} (m : M A) (k : A -> M B) : M B :=
  fun t => match m t with
           | (Ok a, t') => k a t'
           | (Raise e, t') => (Raise e, t')
           end.

Definition raise {A} (e : exn) : M A := fun t => (Raise e, t).

(** [try: m  except Exception as e: h e] *)
Definition try_except {A} (m : M A) (h : exn -> M A) : M A :=
  fun t => match m t with
           | (Ok a, t') => (Ok a, t')
           | (Raise e, t') => h e t'
           end.

(** A computation without events of its own, run inside [M]. *)
Definition lift_outcome {A} (r : outcome A) : M A := fun t => (r, t).

Definition emit (e : event) : M unit := fun t => (Ok tt, (t ++ [e])%list).

Declare Scope py_scope.
Delimit Scope py_scope with py.
Notation "x <- m ;; k" := (bind m (fun x => k))
  (at level 61, m at next level, right associativity) : py_scope.
Notation "m ;;; k" := (bind m (fun _ => k))
  (at level 61, right associativity) : py_scope.
Open Scope py_scope.

Definition log (lvl : level) (msg : string) : M unit := emit (Log lvl msg).

Section WithEnv.

Variable env : Env.

(** [subprocess.run(cmd, capture_output=True).returncode] *)
Definition subprocess_run (cmd : list string) : M Z :=
  emit (Run cmd) ;;;
  match run env cmd with
  | Completed rc => ret rc
  | RunRaises e => raise e
  end.

(** A library call that returns nothing of interest and may raise. *)
Definition lib_call (c : call) : M unit :=
  fun t => match lib_raises env t c with
           | None => (Ok tt, (t ++ [Lib c])%list)
           | Some e => (Raise e, (t ++ [Lib c])%list)
           end.

(** ** Screenshot backends *)

(** The backend classes; they are used as values, never instantiated. *)
Inductive backend_cls : Type :=
| ScreenshotBackend
| SpectacleBackend
| GrimBackend
| GnomeScreenshotBackend.

Definition name (cls : backend_cls) : string :=
  match cls with
  | ScreenshotBackend => "base"
  | SpectacleBackend => "spectacle"
  | GrimBackend => "grim"
  | GnomeScreenshotBackend => "gnome-screenshot"
  end.

(** [shutil.which(...) is not None]; the base class raises. *)
Definition is_available (cls : backend_cls) : outcome bool :=
  match cls with
  | ScreenshotBackend => Raise NotImplementedError
  | SpectacleBackend => Ok (which env "spectacle")
  | GrimBackend => Ok (which env "grim")
  | GnomeScreenshotBackend => Ok (which env "gnome-screenshot")
  end.

Definition capture_full (cls : backend_cls) (filename : string)
  (include_cursor : bool) : M bool :=
  match cls with
  | ScreenshotBackend => raise NotImplementedError
  | SpectacleBackend =>
      let cmd := ["spectacle"; "-b"; "-n"; "-f"; "-o"; filename] in
      let cmd := if include_cursor then (cmd ++ ["-p"])%list else cmd in
      rc <- subprocess_run cmd ;;
      ret (rc =? 0)%Z
  | GrimBackend =>
      let cmd := ["grim"] in
      let cmd := if include_cursor then (cmd ++ ["-c"])%list else cmd in
      let cmd := (cmd ++ [filename])%list in
      rc <- subprocess_run cmd ;;
      ret (rc =? 0)%Z
  | GnomeScreenshotBackend =>
      let cmd := ["gnome-screenshot"; "-f"; filename] in
      let cmd := if include_cursor then (cmd ++ ["-p"])%list else cmd in
      rc <- subprocess_run cmd ;;
      ret (rc =? 0)%Z
  end.

(** The geometry argument built by [f"{x},{y} {width}x{height}"]. *)
Definition grim_geometry (x y width height : Z) : string :=
  str_int x ++ "," ++ str_int y ++ " " ++ str_int width ++ "x" ++ str_int height.

Definition capture_area (cls : backend_cls) (filename : string)
  (x y width height : Z) : M bool :=
  match cls with
  | ScreenshotBackend => raise NotImplementedError
  | SpectacleBackend =>
      log WARNING ("Spectacle doesn't support coordinate-based area capture, "
                   ++ "capturing full screen instead") ;;;
      capture_full SpectacleBackend filename false
  | GrimBackend =>
      let cmd := ["grim"; "-g"; grim_geometry x y width height; filename] in
      rc <- subprocess_run cmd ;;
      ret (rc =? 0)%Z
  | GnomeScreenshotBackend =>
      capture_full GnomeScreenshotBackend filename false
  end.

Definition capture_window (cls : backend_cls) (filename : string)
  (include_cursor include_decorations : bool) : M bool :=
  match cls with
  | ScreenshotBackend => raise NotImplementedError
  | SpectacleBackend =>
      let cmd := ["spectacle"; "-b"; "-n"; "-a"; "-o"; filename] in
      let cmd := if include_cursor then (cmd ++ ["-p"])%list else cmd in
      let cmd := if negb include_decorations then (cmd ++ ["-e"])%list else cmd in
      rc <- subprocess_run cmd ;;
      ret (rc =? 0)%Z
  | GrimBackend =>
      log WARNING "Grim doesn't support window capture, capturing full screen" ;;;
      capture_full GrimBackend filename include_cursor
  | GnomeScreenshotBackend =>
      let cmd := ["gnome-screenshot"; "-w"; "-f"; filename] in
      let cmd := if include_cursor then (cmd ++ ["-p"])%list else cmd in
      let cmd := if negb include_decorations then (cmd ++ ["-B"])%list else cmd in
      rc <- subprocess_run cmd ;;
      ret (rc =? 0)%Z
  end.

(** ** Backend detection *)

Definition BACKENDS : list backend_cls :=
  [SpectacleBackend; GrimBackend; GnomeScreenshotBackend].

(** Truthiness of an [Optional[str]]: [None] and the empty string are false. *)
Definition truthy_str (s : option string) : bool :=
  match s with
  | None => false
  | Some s => negb (s =? "")
  end.

(** The first loop of [detect_backend]: stop at the first name match. *)
Fixpoint scan_preferred (backends : list backend_cls) (preferred : string)
  : M (option backend_cls) :=
  match backends with
  | [] => ret None
  | backend_cls :: rest =>
      if name backend_cls =? preferred then
        avail <- lift_outcome (is_available backend_cls) ;;
        if avail then
          log INFO ("Using preferred backend: " ++ name backend_cls) ;;;
          ret (Some backend_cls)
        else
          log WARNING ("Preferred backend '" ++ preferred ++ "' not available") ;;;
          ret None
      else scan_preferred rest preferred
  end.

(** The second loop: the first available backend, in list order. *)
Fixpoint scan_available (backends : list backend_cls) : M (option backend_cls) :=
  match backends with
  | [] => ret None
  | backend_cls :: rest =>
      avail <- lift_outcome (is_available backend_cls) ;;
      if avail then
        log INFO ("Auto-detected backend: " ++ name backend_cls) ;;;
        ret (Some backend_cls)
      else scan_available rest
  end.

(** [detect_backend] over an arbitrary backend list. *)
Definition detect_backend_in (backends : list backend_cls)
  (preferred : option string) : M (option backend_cls) :=
  found <- (if truthy_str preferred
            then scan_preferred backends
                   (match preferred with Some p => p | None => "" end)
            else ret None) ;;
  match found with
  | Some b => ret (Some b)
  | None => scan_available backends
  end.

Definition detect_backend (preferred : option string) : M (option backend_cls) :=
  detect_backend_in BACKENDS preferred.


(** ** The Screenshot service interface *)

Record ScreenshotInterface : Type := {
  backend : backend_cls;
  warn_before : bool
}.

Definition _maybe_warn (self : ScreenshotInterface) : M unit :=
  if warn_before self then
    try_except
      (subprocess_run ["notify-send"; "-u"; "normal"; "-t"; "2000";
                       "Screenshot"; "A screenshot will be taken..."] ;;;
       ret tt)
      (fun _ => ret tt)
  else ret tt.

Definition saved_or_failed (success : bool) : string :=
  if success then "saved" else "failed".

Definition Screenshot (self : ScreenshotInterface)
  (include_cursor flash : bool) (filename : string) : M (bool * string) :=
  log INFO ("Screenshot requested: cursor=" ++ str_bool include_cursor
            ++ ", file=" ++ filename) ;;;
  _maybe_warn self ;;;
  try_except
    (success <- capture_full (backend self) filename include_cursor ;;
     log INFO ("Screenshot " ++ saved_or_failed success ++ ": " ++ filename) ;;;
     ret (success, filename))
    (fun e =>
       log ERROR ("Screenshot error: " ++ str_exn e) ;;;
       ret (false, filename)).

Definition ScreenshotWindow (self : ScreenshotInterface)
  (include_frame include_cursor flash : bool) (filename : string)
  : M (bool * string) :=
  log INFO ("Window screenshot requested: file=" ++ filename) ;;;
  _maybe_warn self ;;;
  try_except
    (success <- capture_window (backend self) filename include_cursor include_frame ;;
     log INFO ("Window screenshot " ++ saved_or_failed success ++ ": " ++ filename) ;;;
     ret (success, filename))
    (fun e =>
       log ERROR ("Window screenshot error: " ++ str_exn e) ;;;
       ret (false, filename)).

Definition ScreenshotArea (self : ScreenshotInterface)
  (x y width height : Z) (flash : bool) (filename : string)
  : M (bool * string) :=
  log INFO ("Area screenshot requested: (" ++ str_int x ++ "," ++ str_int y
            ++ ") " ++ str_int width ++ "x" ++ str_int height) ;;;
  _maybe_warn self ;;;
  try_except
    (success <- capture_area (backend self) filename x y width height ;;
     log INFO ("Area screenshot " ++ saved_or_failed success ++ ": " ++ filename) ;;;
     ret (success, filename))
    (fun e =>
       log ERROR ("Area screenshot error: " ++ str_exn e) ;;;
       ret (false, filename)).

(** The three methods behind one entry point, by kind of capture request. *)
Inductive capture_request : Type :=
| Full (include_cursor : bool)
| Window (include_frame include_cursor : bool)
| Area (x y width height : Z).

(** The backend operation a method delegates to. *)
Definition delegate (cls : backend_cls) (req : capture_request)
  (filename : string) : M bool :=
  match req with
  | Full include_cursor => capture_full cls filename include_cursor
  | Window include_frame include_cursor =>
      capture_window cls filename include_cursor include_frame
  | Area x y width height => capture_area cls filename x y width height
  end.

(** The interface method that serves a request. *)
Definition serve (self : ScreenshotInterface) (req : capture_request)
  (flash : bool) (filename : string) : M (bool * string) :=
  match req with
  | Full include_cursor => Screenshot self include_cursor flash filename
  | Window include_frame include_cursor =>
      ScreenshotWindow self include_frame include_cursor flash filename
  | Area x y width height => ScreenshotArea self x y width height flash filename
  end.

(** The record a method logs on entry. *)
Definition request_record (req : capture_request) (filename : string) : event :=
  match req with
  | Full include_cursor =>
      Log INFO ("Screenshot requested: cursor=" ++ str_bool include_cursor
                ++ ", file=" ++ filename)
  | Window _ _ => Log INFO ("Window screenshot requested: file=" ++ filename)
  | Area x y width height =>
      Log INFO ("Area screenshot requested: (" ++ str_int x ++ "," ++ str_int y
                ++ ") " ++ str_int width ++ "x" ++ str_int height)
  end.

(** The events of [_maybe_warn]. *)
Definition warn_events (self : ScreenshotInterface) : list event :=
  if warn_before self
  then [Run ["notify-send"; "-u"; "normal"; "-t"; "2000";
             "Screenshot"; "A screenshot will be taken..."]]
  else [].

(** The record a method logs when the backend operation returned. *)
Definition result_record (req : capture_request) (success : bool)
  (filename : string) : event :=
  Log INFO ((match req with
             | Full _ => "Screenshot "
             | Window _ _ => "Window screenshot "
             | Area _ _ _ _ => "Area screenshot "
             end) ++ saved_or_failed success ++ ": " ++ filename).

(** The error record a method logs for a caught exception. *)
Definition error_record (req : capture_request) (e : exn) : event :=
  Log ERROR ((match req with
              | Full _ => "Screenshot error: "
              | Window _ _ => "Window screenshot error: "
              | Area _ _ _ _ => "Area screenshot error: "
              end) ++ str_exn e).

End WithEnv.

(** Observations on traces. *)
Definition is_warning (e : event) : bool :=
  match e with
  | Log WARNING _ => true
  | _ => false
  end.

Definition is_log (e : event) : bool :=
  match e with
  | Log _ _ => true
  | _ => false
  end.

Definition is_disconnect (e : event) : bool :=
  match e with
  | Lib BusDisconnect => true
  | _ => false
  end.

(** How many times [bus.disconnect()] was called. *)
Definition disconnects (t : trace) : nat := List.length (filter is_disconnect t).

(** ** The idle monitor *)

(** [bytes.decode()]: strict UTF-8, giving the code points of the text;
    [None] stands for the UnicodeDecodeError. *)
Definition is_cont (n : N) : bool := ((128 <=? n) && (n <=? 191))%N.

Fixpoint utf8_decode (bs : list byte) : option (list N) :=
  match bs with
  | [] => Some []
  | b0 :: r0 =>
      let n0 := Byte.to_N b0 in
      if (n0 <? 128)%N then option_map (cons n0) (utf8_decode r0)
      else if ((194 <=? n0) && (n0 <=? 223))%N then
        match r0 with
        | b1 :: r1 =>
            let n1 := Byte.to_N b1 in
            if is_cont n1
            then option_map (cons ((n0 - 192) * 64 + (n1 - 128))%N) (utf8_decode r1)
            else None
        | _ => None
        end
      else if ((224 <=? n0) && (n0 <=? 239))%N then
        match r0 with
        | b1 :: b2 :: r2 =>
            let n1 := Byte.to_N b1 in
            let n2 := Byte.to_N b2 in
            let lo := (if n0 =? 224 then 160 else 128)%N in
            let hi := (if n0 =? 237 then 159 else 191)%N in
            if ((lo <=? n1) && (n1 <=? hi))%N && is_cont n2
            then option_map
                   (cons ((n0 - 224) * 4096 + (n1 - 128) * 64 + (n2 - 128))%N)
                   (utf8_decode r2)
            else None
        | _ => None
        end
      else if ((240 <=? n0) && (n0 <=? 244))%N then
        match r0 with
        | b1 :: b2 :: b3 :: r3 =>
            let n1 := Byte.to_N b1 in
            let n2 := Byte.to_N b2 in
            let n3 := Byte.to_N b3 in
            let lo := (if n0 =? 240 then 144 else 128)%N in
            let hi := (if n0 =? 244 then 143 else 191)%N in
            if ((lo <=? n1) && (n1 <=? hi))%N && is_cont n2 && is_cont n3
            then option_map
                   (cons ((n0 - 240) * 262144 + (n1 - 128) * 4096
                          + (n2 - 128) * 64 + (n3 - 128))%N)
                   (utf8_decode r3)
            else None
        | _ => None
        end
      else None
  end.

(** The code points [str.strip()] removes ([str.isspace]). *)
Definition is_space (c : N) : bool :=
  (((9 <=? c) && (c <=? 13)) || ((28 <=? c) && (c <=? 32))
   || (c =? 133) || (c =? 160) || (c =? 5760)
   || ((8192 <=? c) && (c <=? 8202))
   || (c =? 8232) || (c =? 8233) || (c =? 8239) || (c =? 8287)
   || (c =? 12288))%N.

Fixpoint lstrip (s : list N) : list N :=
  match s with
  | [] => []
  | c :: s' => if is_space c then lstrip s' else s
  end.

Definition rstrip (s : list N) : list N := rev (lstrip (rev s)).

Definition strip (s : list N) : list N := rstrip (lstrip s).

(** The code points of an ASCII literal of the source. *)
Definition code_points (s : string) : list N :=
  map N_of_ascii (list_ascii_of_string s).

Fixpoint str_eqb (s1 s2 : list N) : bool :=
  match s1, s2 with
  | [], [] => true
  | c1 :: s1', c2 :: s2' => (c1 =? c2)%N && str_eqb s1' s2'
  | _, _ => false
  end.

(** [line.decode().strip() == "resume"] *)
Definition denotes_resume (line : list byte) : outcome bool :=
  match utf8_decode line with
  | Some text => Ok (str_eqb (strip text) (code_points "resume"))
  | None => Raise UnicodeDecodeError
  end.

(** [line.decode().strip()], when the line decodes. *)
Definition decoded_stripped (line : list byte) : option (list N) :=
  option_map strip (utf8_decode line).

(** The lines swayidle's two commands write. *)
Definition timeout_line : list byte := (list_byte_of_string "timeout" ++ [x0a])%list.
Definition resume_line : list byte := (list_byte_of_string "resume" ++ [x0a])%list.

(** The child process handle; [stdout] tells whether it has a pipe. *)
Record Process : Type := { stdout : bool }.

Inductive Task : Type := IdleLoopTask.

Record IdleMonitorInterface : Type := {
  last_active : Z;
  _monitor_process : option Process;
  _monitor_task : option Task
}.

Definition set_last_active (self : IdleMonitorInterface) (t : Z)
  : IdleMonitorInterface :=
  {| last_active := t;
     _monitor_process := _monitor_process self;
     _monitor_task := _monitor_task self |}.

(** [IdleMonitorInterface.__init__] at clock reading [t]. *)
Definition IdleMonitorInterface_init (t : Z) : IdleMonitorInterface :=
  {| last_active := t; _monitor_process := None; _monitor_task := None |}.

(** The body of [async for line in stdout]; each line comes with the
    reading [datetime.now] gives while it is processed.  The exception of
    a failed decode leaves the loop. *)
Definition idle_loop_body (self : IdleMonitorInterface)
  (line : list byte) (t : Z) : outcome IdleMonitorInterface :=
  match denotes_resume line with
  | Ok true => Ok (set_last_active self t)
  | Ok false => Ok self
  | Raise e => Raise e
  end.

Fixpoint idle_loop_lines (self : IdleMonitorInterface)
  (lines : list (list byte * Z)) : IdleMonitorInterface * list event :=
  match lines with
  | [] => (self, [])
  | (line, t) :: rest =>
      match idle_loop_body self line t with
      | Ok self' => idle_loop_lines self' rest
      | Raise e => (self, [Log DEBUG ("Idle monitor loop error: " ++ str_exn e)])
      end
  end.

(** [_idle_loop], run on the lines the child writes until its stream
    closes; the result is the monitor's state when the loop returns and
    what it logged. *)
Definition _idle_loop (self : IdleMonitorInterface)
  (lines : list (list byte * Z)) : IdleMonitorInterface * list event :=
  match _monitor_process self with
  | None => (self, [])
  | Some p => if negb (stdout p) then (self, []) else idle_loop_lines self lines
  end.

(** ** Methods that mutate their object *)

(** A method on an object of type [S]: the object's fields are threaded
    next to the trace, and survive an exception. *)
Definition MS (S A : Type) : Type := S -> trace -> outcome A * S * trace.

Definition retS {S A} (a : A) : MS S A := fun s t => (Ok a, s, t).

Definition bindS {S A B} (m : MS S A) (k : A -> MS S B) : MS S B :=
  fun s t => match m s t with
             | (Ok a, s', t') => k a s' t'
             | (Raise e, s', t') => (Raise e, s', t')
             end.

Definition liftS {S A} (m : M A) : MS S A :=
  fun s t => let (r, t') := m t in (r, s, t').

Definition getS {S} : MS S S := fun s t => (Ok s, s, t).

Definition modifyS {S} (f : S -> S) : MS S unit := fun s t => (Ok tt, f s, t).

(** [try: m  except Exception as e: h e] for a method. *)
Definition try_exceptS {S A} (m : MS S A) (h : exn -> MS S A) : MS S A :=
  fun s t => match m s t with
             | (Ok a, s', t') => (Ok a, s', t')
             | (Raise e, s', t') => h e s' t'
             end.

Notation "x <<- m ;; k" := (bindS m (fun x => k))
  (at level 61, m at next level, right associativity) : py_scope.
Notation "m ;;;; k" := (bindS m (fun _ => k))
  (at level 61, right associativity) : py_scope.

Inductive MessageBus : Type := SessionBus.

Record ScreenshotBridge : Type := {
  backend_name : option string;
  bridge_warn_before : bool;
  enable_idle : bool;
  bus : option MessageBus;
  idle_monitor : option IdleMonitorInterface;
  _running : bool
}.

(** [ScreenshotBridge.__init__] *)
Definition ScreenshotBridge_init (backend : option string)
  (warn_before enable_idle : bool) : ScreenshotBridge :=
  {| backend_name := backend;
     bridge_warn_before := warn_before;
     enable_idle := enable_idle;
     bus := None;
     idle_monitor := None;
     _running := false |}.

Definition set_bus (b : option MessageBus) (self : ScreenshotBridge) :=
  {| backend_name := backend_name self;
     bridge_warn_before := bridge_warn_before self;
     enable_idle := enable_idle self;
     bus := b;
     idle_monitor := idle_monitor self;
     _running := _running self |}.

Definition set_idle_monitor (m : option IdleMonitorInterface)
  (self : ScreenshotBridge) :=
  {| backend_name := backend_name self;
     bridge_warn_before := bridge_warn_before self;
     enable_idle := enable_idle self;
     bus := bus self;
     idle_monitor := m;
     _running := _running self |}.

Definition set_running (r : bool) (self : ScreenshotBridge) :=
  {| backend_name := backend_name self;
     bridge_warn_before := bridge_warn_before self;
     enable_idle := enable_idle self;
     bus := bus self;
     idle_monitor := idle_monitor self;
     _running := r |}.

Definition set_monitor_process (p : option Process) (self : IdleMonitorInterface) :=
  {| last_active := last_active self;
     _monitor_process := p;
     _monitor_task := _monitor_task self |}.

Definition set_monitor_task (k : option Task) (self : IdleMonitorInterface) :=
  {| last_active := last_active self;
     _monitor_process := _monitor_process self;
     _monitor_task := k |}.

Section WithEnvObjects.

Variable env : Env.

Definition swayidle_cmd : list string :=
  ["swayidle"; "-w"; "timeout"; "1"; "echo timeout"; "resume"; "echo resume"].

Definition start_monitoring : MS IdleMonitorInterface bool :=
  started <<-
  (if which env "swayidle" then
     try_exceptS
       (liftS (lib_call env (SpawnExec swayidle_cmd)) ;;;;
        modifyS (set_monitor_process (Some {| stdout := true |})) ;;;;
        liftS (lib_call env CreateTask) ;;;;
        modifyS (set_monitor_task (Some IdleLoopTask)) ;;;;
        liftS (log INFO "Started swayidle idle monitor") ;;;;
        retS (Some true))
       (fun e =>
          liftS (log DEBUG ("Failed to start swayidle: " ++ str_exn e)) ;;;;
          retS None)
   else retS None) ;;
  match started with
  | Some r => retS r
  | None =>
      liftS (log WARNING "No idle monitor available, idle time will not be tracked") ;;;;
      retS false
  end.


(** [stop_monitoring] reads the monitor's fields and assigns none.  The
    handler around [await self._monitor_task] swallows the cancellation;
    what the environment raises there is any other exception. *)
Definition stop_monitoring (self : IdleMonitorInterface) : M unit :=
  (match _monitor_task self with
   | Some _ => lib_call env TaskCancel ;;; lib_call env TaskAwait
   | None => ret tt
   end) ;;;
  (match _monitor_process self with
   | Some _ => lib_call env ProcTerminate ;;; lib_call env ProcWait
   | None => ret tt
   end).

(** Run a method of the idle monitor on the bridge's [idle_monitor]. *)
Definition on_idle_monitor {A} (m : MS IdleMonitorInterface A)
  (dflt : A) : MS ScreenshotBridge A :=
  fun self t =>
    match idle_monitor self with
    | Some mon =>
        match m mon t with
        | (r, mon', t') => (r, set_idle_monitor (Some mon') self, t')
        end
    | None => (Ok dflt, self, t)
    end.

Definition start : MS ScreenshotBridge bool :=
  self <<- getS ;;
  backend <<- liftS (detect_backend env (backend_name self)) ;;
  match backend with
  | None =>
      liftS (log ERROR "No screenshot backend available!") ;;;;
      liftS (log ERROR "Install one of: spectacle (KDE), grim (wlroots)") ;;;;
      retS false
  | Some backend =>
      liftS (lib_call env BusNew) ;;;;
      modifyS (set_bus (Some SessionBus)) ;;;;
      liftS (lib_call env BusConnect) ;;;;
      liftS (log INFO "Connected to DBus session bus") ;;;;
      liftS (lib_call env (BusExport "/org/gnome/Shell/Screenshot"
                                     "org.gnome.Shell.Screenshot")) ;;;;
      liftS (lib_call env (BusRequestName "org.gnome.Shell.Screenshot")) ;;;;
      liftS (log INFO "Registered org.gnome.Shell.Screenshot") ;;;;
      (if enable_idle self then
         (fun s t => modifyS (set_idle_monitor
                                (Some (IdleMonitorInterface_init (now env t)))) s t) ;;;;
         on_idle_monitor start_monitoring false ;;;;
         liftS (lib_call env (BusExport "/org/gnome/Mutter/IdleMonitor/Core"
                                        "org.gnome.Mutter.IdleMonitor")) ;;;;
         liftS (lib_call env (BusRequestName "org.gnome.Mutter.IdleMonitor")) ;;;;
         liftS (log INFO "Registered org.gnome.Mutter.IdleMonitor")
       else retS tt) ;;;;
      modifyS (set_running true) ;;;;
      liftS (log INFO ("Bridge started with backend: " ++ name backend)) ;;;;
      retS true
  end.

Definition stop : MS ScreenshotBridge unit :=
  modifyS (set_running false) ;;;;
  self <<- getS ;;
  (match idle_monitor self with
   | Some mon => liftS (stop_monitoring mon)
   | None => retS tt
   end) ;;;;
  (match bus self with
   | Some _ => liftS (lib_call env BusDisconnect)
   | None => retS tt
   end) ;;;;
  liftS (log INFO "Bridge stopped").

End WithEnvObjects.

(** The library calls of the teardown. *)
Definition teardown_calls : list call :=
  [TaskCancel; TaskAwait; ProcTerminate; ProcWait; BusDisconnect].

(** The events of one [stop()] on a bridge whose teardown calls all return. *)
Definition stop_events (self : ScreenshotBridge) : list event :=
  ((match idle_monitor self with
    | Some mon =>
        (match _monitor_task mon with
         | Some _ => [Lib TaskCancel; Lib TaskAwait]
         | None => []
         end) ++
        (match _monitor_process mon with
         | Some _ => [Lib ProcTerminate; Lib ProcWait]
         | None => []
         end)
    | None => []
    end) ++
   (match bus self with
    | Some _ => [Lib BusDisconnect]
    | None => []
    end) ++
   [Log INFO "Bridge stopped"])%list.

(** ** Concrete environments and objects *)

(** Every tool is installed and exits with status 0; no library call raises. *)
Definition env_all_tools : Env :=
  {| which := fun _ => true;
     run := fun _ => Completed 0;
     lib_raises := fun _ _ => None;
     now := fun t => Z.of_nat (List.length t) |}.

(** No tool is installed: [which] finds nothing and spawning fails. *)
Definition env_no_tools : Env :=
  {| which := fun _ => false;
     run := fun _ => RunRaises (OSError "[Errno 2] No such file or directory");
     lib_raises := fun _ _ => None;
     now := fun t => Z.of_nat (List.length t) |}.

(** A monitor whose child process and read task are alive. *)
Definition monitoring_since (t : Z) : IdleMonitorInterface :=
  {| last_active := t;
     _monitor_process := Some {| stdout := true |};
     _monitor_task := Some IdleLoopTask |}.

(** The bridge as [start] leaves it when idle tracking is disabled. *)
Definition running_bridge : ScreenshotBridge :=
  {| backend_name := None;
     bridge_warn_before := false;
     enable_idle := false;
     bus := Some SessionBus;
     idle_monitor := None;
     _running := true |}.

(** The bridge as [start] leaves it when swayidle was spawned. *)
Definition monitoring_bridge : ScreenshotBridge :=
  {| backend_name := None;
     bridge_warn_before := false;
     enable_idle := true;
     bus := Some SessionBus;
     idle_monitor := Some (monitoring_since 0);
     _running := true |}.

Definition is_proc_wait (e : event) : bool :=
  match e with
  | Lib ProcWait => true
  | _ => false
  end.

(** An environment in which terminating a child that was already waited
    for raises ProcessLookupError. *)
Definition env_reaped_child : Env :=
  {| which := fun _ => true;
     run := fun _ => Completed 0;
     lib_raises := fun t c =>
       match c with
       | ProcTerminate =>
           if existsb is_proc_wait t then Some ProcessLookupError else None
       | _ => None
       end;
     now := fun t => Z.of_nat (List.length t) |}.

(** Only grim is installed. *)
Definition env_only_grim : Env :=
  {| which := fun s => s =? "grim";
     run := fun _ => Completed 0;
     lib_raises := fun _ _ => None;
     now := fun t => Z.of_nat (List.length t) |}.

(** The tools are installed but the session bus refuses the connection. *)
Definition env_bus_down : Env :=
  {| which := fun _ => true;
     run := fun _ => Completed 0;
     lib_raises := fun _ c =>
       match c with
       | BusConnect => Some (OSError "[Errno 111] Connection refused")
       | _ => None
       end;
     now := fun t => Z.of_nat (List.length t) |}.

(** * Properties of the backends *)

Ltac run_cases :=
  repeat match goal with
         | |- context [run ?e ?c] => destruct (run e c)
         end.

Section BackendProofs.

Variable env : Env.

(** A backend operation only appends to the trace. *)
Lemma delegate_extends cls req filename t :
  exists es, snd (delegate env cls req filename t) = (t ++ es)%list.
Proof.
  destruct cls, req as [ic | fr ic | x y w h]; cbn;
    unfold raise, bind, subprocess_run, log, emit; cbn;
    try (exists []; now rewrite app_nil_r);
    run_cases; cbn; rewrite <- ?app_assoc; eexists; reflexivity.
Qed.

(** Whether a backend operation returns or raises does not depend on the
    events that came before it. *)
Lemma delegate_outcome_indep cls req filename t t' :
  fst (delegate env cls req filename t) = fst (delegate env cls req filename t').
Proof.
  destruct cls, req as [ic | fr ic | x y w h]; cbn;
    unfold raise, bind, subprocess_run, log, emit; cbn;
    try reflexivity; run_cases; reflexivity.
Qed.

(** Spectacle has no area capture: it warns, then captures the full
    screen without the cursor. *)
Lemma spectacle_capture_area_degrades filename x y width height t :
  let warning :=
    Log WARNING ("Spectacle doesn't support coordinate-based area capture, "
                 ++ "capturing full screen instead") in
  capture_area env SpectacleBackend filename x y width height t
  = capture_full env SpectacleBackend filename false (t ++ [warning])%list
  /\ fst (capture_area env SpectacleBackend filename x y width height t)
     = fst (capture_full env SpectacleBackend filename false t).
Proof.
  cbn; unfold bind, subprocess_run, log, emit; cbn.
  split; [reflexivity | run_cases; reflexivity].
Qed.

(** Grim has no window capture: it warns, then captures the full screen
    with the cursor flag it was given. *)
Lemma grim_capture_window_degrades filename include_cursor include_decorations t :
  let warning :=
    Log WARNING "Grim doesn't support window capture, capturing full screen" in
  capture_window env GrimBackend filename include_cursor include_decorations t
  = capture_full env GrimBackend filename include_cursor (t ++ [warning])%list
  /\ fst (capture_window env GrimBackend filename include_cursor
            include_decorations t)
     = fst (capture_full env GrimBackend filename include_cursor t).
Proof.
  cbn; unfold bind, subprocess_run, log, emit; cbn.
  split; [reflexivity | destruct include_cursor; cbn; run_cases; reflexivity].
Qed.

(** C1 (at GnomeScreenshotBackend.capture_area).  The area capture of the
    gnome-screenshot backend degrades to [capture_full] on the same file,
    as the claim says, but unlike its two siblings it emits no warning:
    the only event it adds is the spawned full-screen command. *)
Theorem gnome_capture_area_emits_no_warning filename x y width height t :
  capture_area env GnomeScreenshotBackend filename x y width height t
  = capture_full env GnomeScreenshotBackend filename false t
  /\ snd (capture_area env GnomeScreenshotBackend filename x y width height t)
     = (t ++ [Run ["gnome-screenshot"; "-f"; filename]])%list
  /\ existsb is_warning [Run ["gnome-screenshot"; "-f"; filename]] = false.
Proof.
  cbn; unfold bind, subprocess_run, emit; cbn.
  repeat split; run_cases; reflexivity.
Qed.

End BackendProofs.

(** * Properties of backend detection *)

(** [find] returns the first element that satisfies the test. *)
Lemma find_first {A} (f : A -> bool) (l : list A) (x : A) :
  find f l = Some x <->
  exists before after,
    l = (before ++ x :: after)%list /\ f x = true
    /\ forall y, In y before -> f y = false.
Proof.
  induction l as [| a l IH]; cbn.
  - split; [discriminate |].
    intros (before & after & E & _); destruct before; discriminate.
  - destruct (f a) eqn:Fa.
    + split.
      * intros [= <-]. exists [], l. repeat split; trivial. intros y [].
      * intros (before & after & E & Fx & Hb).
        destruct before as [| y before]; cbn in E; injection E as -> E.
        -- reflexivity.
        -- rewrite (Hb y) in Fa by now left. discriminate.
    + rewrite IH. split.
      * intros (before & after & -> & Fx & Hb).
        exists (a :: before), after. repeat split; trivial.
        intros y [<- | Hy]; auto.
      * intros (before & after & E & Fx & Hb).
        destruct before as [| y before]; cbn in E; injection E as -> E.
        -- congruence.
        -- exists before, after. repeat split; trivial.
           intros z Hz. apply Hb. now right.
Qed.

Lemma Ok_inj {A} (a a' : A) : Ok a = Ok a' -> a = a'.
Proof. now intros [= ->]. Qed.

Lemma name_inj (b b' : backend_cls) : name b = name b' -> b = b'.
Proof. destruct b, b'; cbn; intros H; try reflexivity; discriminate H. Qed.

Lemma name_truthy (b : backend_cls) : truthy_str (Some (name b)) = true.
Proof. destruct b; reflexivity. Qed.

Section DetectProofs.

Variable env : Env.

(** A registered backend probes the executable that carries its name. *)
Lemma is_available_registered b :
  In b BACKENDS -> is_available env b = Ok (which env (name b)).
Proof.
  cbn; intros [<- | [<- | [<- | []]]]; reflexivity.
Qed.

Lemma scan_available_find backends t :
  (forall b, In b backends -> is_available env b = Ok (which env (name b))) ->
  fst (scan_available env backends t)
  = Ok (find (fun b => which env (name b)) backends).
Proof.
  revert t; induction backends as [| b rest IH]; intros t Hreg; [reflexivity |].
  cbn [scan_available find]. unfold bind, lift_outcome.
  rewrite (Hreg b) by now left.
  destruct (which env (name b)); [reflexivity |].
  apply IH. intros b' Hb'. apply Hreg. now right.
Qed.

Lemma detect_backend_none_find t :
  fst (detect_backend env None t)
  = Ok (find (fun b => which env (name b)) BACKENDS).
Proof.
  unfold detect_backend, detect_backend_in; cbn [truthy_str].
  unfold bind, ret. apply scan_available_find, is_available_registered.
Qed.

(** C3.  Without a preferred name, [detect_backend] returns the first
    backend of the list spectacle, grim, gnome-screenshot whose
    [is_available] is true, and returns [None] exactly when no backend's
    executable resolves. *)
Theorem detect_backend_auto_first_available t :
  map name BACKENDS = ["spectacle"; "grim"; "gnome-screenshot"]
  /\ (forall b,
        fst (detect_backend env None t) = Ok (Some b) <->
        exists before after,
          BACKENDS = (before ++ b :: after)%list
          /\ is_available env b = Ok true
          /\ forall b', In b' before -> is_available env b' = Ok false)
  /\ (fst (detect_backend env None t) = Ok None <->
      forall b, In b BACKENDS -> which env (name b) = false).
Proof.
  split; [reflexivity |]. rewrite detect_backend_none_find. split.
  - intros b. split.
    + intros H. apply Ok_inj, find_first in H.
      destruct H as (before & after & E & Hb & Hbefore).
      exists before, after. split; [exact E |].
      assert (Hin : forall y, In y (before ++ b :: after)%list -> In y BACKENDS)
        by (intros y Hy; rewrite E; exact Hy).
      split.
      * rewrite is_available_registered, Hb; trivial.
        apply Hin, in_elt.
      * intros b' Hb'. rewrite is_available_registered, (Hbefore b' Hb'); trivial.
        apply Hin, in_or_app. now left.
    + intros (before & after & E & Hb & Hbefore). f_equal.
      apply find_first. exists before, after.
      assert (Hin : forall y, In y (before ++ b :: after)%list -> In y BACKENDS)
        by (intros y Hy; rewrite E; exact Hy).
      split; [exact E |]. split.
      * rewrite is_available_registered in Hb by (apply Hin, in_elt).
        now injection Hb.
      * intros y Hy. specialize (Hbefore y Hy).
        rewrite is_available_registered in Hbefore
          by (apply Hin, in_or_app; now left).
        now injection Hbefore.
  - split.
    + intros H b Hb. apply Ok_inj in H. exact (find_none _ _ H b Hb).
    + intros H. f_equal.
      destruct (find (fun b => which env (name b)) BACKENDS) as [b |] eqn:F;
        [| reflexivity].
      apply find_some in F. destruct F as [Hb Hw].
      rewrite (H b Hb) in Hw. discriminate.
Qed.

Lemma scan_preferred_hit backends b t :
  In b backends -> is_available env b = Ok true ->
  scan_preferred env backends (name b) t
  = (Ok (Some b), (t ++ [Log INFO ("Using preferred backend: " ++ name b)])%list).
Proof.
  intros Hin Hav. induction backends as [| b0 rest IH]; [destruct Hin |].
  cbn [scan_preferred]. destruct (name b0 =? name b) eqn:E.
  - apply String.eqb_eq, name_inj in E. subst b0.
    unfold bind, lift_outcome. rewrite Hav. reflexivity.
  - apply IH. destruct Hin as [-> | Hin]; [| exact Hin].
    rewrite String.eqb_refl in E. discriminate.
Qed.

(** C8.  A preferred name that matches an available entry of the backend
    list selects that entry, wherever it stands in the list; in
    particular for the list [BACKENDS] that [detect_backend] scans. *)
Theorem detect_backend_preferred_available
  (backends : list backend_cls) (preferred : string) (b : backend_cls) (t : trace) :
  In b backends -> name b = preferred -> is_available env b = Ok true ->
  fst (detect_backend_in env backends (Some preferred) t) = Ok (Some b)
  /\ (backends = BACKENDS ->
      fst (detect_backend env (Some preferred) t) = Ok (Some b)).
Proof.
  intros Hin <- Hav.
  assert (H : fst (detect_backend_in env backends (Some (name b)) t) = Ok (Some b)).
  { unfold detect_backend_in. rewrite name_truthy. unfold bind.
    rewrite (scan_preferred_hit backends b t Hin Hav). reflexivity. }
  split; [exact H |]. intros ->. exact H.
Qed.

End DetectProofs.

Lemma detect_backend_preferred_available_witness :
  In GnomeScreenshotBackend BACKENDS
  /\ is_available env_all_tools GnomeScreenshotBackend = Ok true
  /\ fst (detect_backend env_all_tools (Some "gnome-screenshot") [])
     = Ok (Some GnomeScreenshotBackend).
Proof.
  assert (Hin : In GnomeScreenshotBackend BACKENDS) by (cbn; auto).
  split; [exact Hin |]. split; [reflexivity |].
  destruct (detect_backend_preferred_available env_all_tools BACKENDS
              "gnome-screenshot" GnomeScreenshotBackend []
              Hin eq_refl eq_refl) as [_ H].
  exact (H eq_refl).
Defined.

(** * Properties of the Screenshot interface *)

Section InterfaceProofs.

Variable env : Env.

(** [_maybe_warn] swallows whatever the notification tool does. *)
Lemma maybe_warn_spec self t :
  _maybe_warn env self t = (Ok tt, (t ++ warn_events self)%list).
Proof.
  unfold _maybe_warn, warn_events. destruct (warn_before self).
  - unfold try_except, bind, subprocess_run, emit, ret, raise.
    run_cases; reflexivity.
  - unfold ret. now rewrite app_nil_r.
Qed.

(** Each method is: log the request, maybe notify, delegate, and turn the
    backend's outcome into a pair with the file name. *)
Lemma serve_spec self req flash filename t :
  serve env self req flash filename t
  = match delegate env (backend self) req filename
            (t ++ request_record req filename :: warn_events self)%list with
    | (Ok success, t') =>
        (Ok (success, filename),
         (t' ++ [result_record req success filename])%list)
    | (Raise e, t') =>
        (Ok (false, filename), (t' ++ [error_record req e])%list)
    end.
Proof.
  destruct req as [ic | fr ic | x y w h];
    unfold serve, Screenshot, ScreenshotWindow, ScreenshotArea, delegate,
      request_record;
    unfold bind at 1; unfold log at 1, emit at 1;
    unfold bind at 1; rewrite maybe_warn_spec;
    rewrite <- app_assoc; cbn [app];
    set (t1 := (t ++ _ :: warn_events self)%list);
    unfold try_except, bind at 1;
    match goal with
    | |- context [match ?m t1 with _ => _ end] =>
        destruct (m t1) as [[success | e] t']
    end; reflexivity.
Qed.

(** C9.  Every call of [Screenshot], [ScreenshotWindow] or
    [ScreenshotArea] returns normally, and the second component of what
    it returns is the file name it was given. *)
Theorem interface_echoes_filename self req flash filename t :
  exists success,
    fst (serve env self req flash filename t) = Ok (success, filename).
Proof.
  rewrite serve_spec.
  destruct (delegate env (backend self) req filename _) as [[success | e] t'];
    eexists; reflexivity.
Qed.

(** C6.  When the backend operation a method delegates to raises, the
    method returns [(False, filename)] and logs the error; nothing is
    raised to the caller. *)
Theorem interface_catches_backend_exception self req flash filename e t0 t :
  fst (delegate env (backend self) req filename t0) = Raise e ->
  fst (serve env self req flash filename t) = Ok (false, filename)
  /\ In (error_record req e) (snd (serve env self req flash filename t)).
Proof.
  intros Hraise. rewrite serve_spec.
  rewrite (delegate_outcome_indep env (backend self) req filename t0
             (t ++ request_record req filename :: warn_events self)%list)
    in Hraise.
  destruct (delegate env (backend self) req filename _) as [[success | e'] t'];
    cbn in Hraise; [discriminate |].
  injection Hraise as ->. split; [reflexivity |].
  cbn. apply in_or_app. right. now left.
Qed.

(** C7.  The [flash] argument is ignored: two calls that differ only in
    [flash] behave alike, in what they return and in what they do. *)
Theorem interface_ignores_flash self req flash flash' filename t :
  serve env self req flash filename t = serve env self req flash' filename t.
Proof.
  destruct req; reflexivity.
Qed.

(** The command Grim's area capture spawns, for any rectangle. *)
Lemma grim_capture_area_command filename x y width height t :
  snd (capture_area env GrimBackend filename x y width height t)
  = (t ++ [Run ["grim"; "-g";
                (str_int x ++ "," ++ str_int y ++ " "
                 ++ str_int width ++ "x" ++ str_int height)%string;
                filename]])%list.
Proof.
  cbn. unfold bind, subprocess_run, emit, grim_geometry; cbn.
  run_cases; reflexivity.
Qed.

(** C4.  With the grim backend, [ScreenshotArea(10, 20, 300, 200, false,
    "/tmp/a.png")] spawns grim with the geometry ["10,20 300x200"] and the
    target [/tmp/a.png], and returns [(True, "/tmp/a.png")] when the tool
    exits with status 0; for any rectangle the geometry is ["x,y WxH"]. *)
Theorem grim_screenshot_area_scenario (warn : bool) (t : trace) :
  run env ["grim"; "-g"; "10,20 300x200"; "/tmp/a.png"] = Completed 0 ->
  let self := {| backend := GrimBackend; warn_before := warn |} in
  ScreenshotArea env self 10 20 300 200 false "/tmp/a.png" t
  = (Ok (true, "/tmp/a.png"),
     (t ++ Log INFO "Area screenshot requested: (10,20) 300x200"
        :: warn_events self
        ++ [Run ["grim"; "-g"; "10,20 300x200"; "/tmp/a.png"];
            Log INFO "Area screenshot saved: /tmp/a.png"])%list)
  /\ forall filename x y width height t',
       snd (capture_area env GrimBackend filename x y width height t')
       = (t' ++ [Run ["grim"; "-g";
                      (str_int x ++ "," ++ str_int y ++ " "
                       ++ str_int width ++ "x" ++ str_int height)%string;
                      filename]])%list.
Proof.
  intros Hrun self. split.
  - change (ScreenshotArea env self 10 20 300 200 false "/tmp/a.png" t)
      with (serve env self (Area 10 20 300 200) false "/tmp/a.png" t).
    rewrite serve_spec. cbn.
    unfold bind, subprocess_run, emit. cbn in Hrun |- *. rewrite Hrun. cbn.
    rewrite <- !app_assoc. reflexivity.
  - intros. apply grim_capture_area_command.
Qed.

End InterfaceProofs.

Lemma interface_catches_backend_exception_witness :
  fst (delegate env_no_tools ScreenshotBackend (Full true) "/tmp/a.png" [])
  = Raise NotImplementedError
  /\ fst (serve env_no_tools
            {| backend := ScreenshotBackend; warn_before := true |}
            (Full true) false "/tmp/a.png" [])
     = Ok (false, "/tmp/a.png").
Proof.
  split; [reflexivity |].
  apply (interface_catches_backend_exception env_no_tools
           {| backend := ScreenshotBackend; warn_before := true |}
           (Full true) false "/tmp/a.png" NotImplementedError [] []).
  reflexivity.
Defined.

Lemma grim_screenshot_area_scenario_witness :
  run env_all_tools ["grim"; "-g"; "10,20 300x200"; "/tmp/a.png"] = Completed 0
  /\ ScreenshotArea env_all_tools
       {| backend := GrimBackend; warn_before := false |}
       10 20 300 200 false "/tmp/a.png" []
     = (Ok (true, "/tmp/a.png"),
        [Log INFO "Area screenshot requested: (10,20) 300x200";
         Run ["grim"; "-g"; "10,20 300x200"; "/tmp/a.png"];
         Log INFO "Area screenshot saved: /tmp/a.png"]).
Proof.
  split; [reflexivity |].
  apply (grim_screenshot_area_scenario env_all_tools false [] eq_refl).
Defined.

(** * Properties of the idle monitor's read loop *)

Lemma str_eqb_eq (s1 s2 : list N) : str_eqb s1 s2 = true <-> s1 = s2.
Proof.
  revert s2; induction s1 as [| c1 s1 IH]; intros [| c2 s2]; cbn;
    try (split; [discriminate | discriminate]); [tauto |].
  rewrite andb_true_iff, N.eqb_eq, IH. split.
  - now intros [-> ->].
  - now intros [= -> ->].
Qed.

Lemma denotes_resume_true (line : list byte) :
  denotes_resume line = Ok true <->
  decoded_stripped line = Some (code_points "resume").
Proof.
  unfold denotes_resume, decoded_stripped.
  destruct (utf8_decode line) as [text |]; cbn [option_map].
  - split.
    + intros H. apply Ok_inj, str_eqb_eq in H. now rewrite H.
    + intros H. apply (f_equal (fun o => match o with Some s => s | None => [] end)) in H.
      f_equal. now apply str_eqb_eq.
  - split; discriminate.
Qed.

(** What one iteration does to the monitor, when the state survives it. *)
Lemma idle_loop_body_cases self line t :
  (decoded_stripped line = Some (code_points "resume")
   /\ idle_loop_body self line t = Ok (set_last_active self t))
  \/ (decoded_stripped line <> Some (code_points "resume")
      /\ (idle_loop_body self line t = Ok self
          \/ (utf8_decode line = None
              /\ idle_loop_body self line t = Raise UnicodeDecodeError))).
Proof.
  unfold idle_loop_body.
  destruct (denotes_resume line) as [[|] | e] eqn:E.
  - left. split; [now apply denotes_resume_true | reflexivity].
  - right. split; [| now left].
    intros H. apply denotes_resume_true in H. congruence.
  - right. split.
    + intros H. apply denotes_resume_true in H. congruence.
    + right. unfold denotes_resume in E.
      destruct (utf8_decode line); [discriminate |].
      injection E as <-. now split.
Qed.

(** The loop gets through a prefix of lines that all decode. *)
Lemma idle_loop_lines_app self pre rest :
  Forall (fun l => utf8_decode (fst l) <> None) pre ->
  idle_loop_lines self (pre ++ rest)
  = idle_loop_lines (fst (idle_loop_lines self pre)) rest.
Proof.
  intros Hpre. revert self.
  induction Hpre as [| [line t] pre Hline Hpre IH]; intros self; [reflexivity |].
  cbn [app idle_loop_lines]. cbn [fst] in Hline.
  destruct (idle_loop_body_cases self line t)
    as [[_ ->] | [_ [-> | [Hnone _]]]]; auto; contradiction.
Qed.

Lemma idle_loop_lines_last self line t :
  fst (idle_loop_lines self [(line, t)])
  = match idle_loop_body self line t with
    | Ok self' => self'
    | Raise _ => self
    end.
Proof.
  cbn. destruct (idle_loop_body self line t); reflexivity.
Qed.

(** C5.  In the read loop, a line that is read sets the last-activity
    timestamp to the current time when, decoded and stripped, it equals
    "resume"; any other line, a "timeout" line among them, leaves the
    monitor as it was. *)
Theorem idle_loop_only_resume_updates
  (self : IdleMonitorInterface) (p : Process)
  (pre : list (list byte * Z)) (line : list byte) (t : Z) :
  _monitor_process self = Some p -> stdout p = true ->
  Forall (fun l => utf8_decode (fst l) <> None) pre ->
  let before := fst (_idle_loop self pre) in
  let after := fst (_idle_loop self (pre ++ [(line, t)])) in
  (decoded_stripped line = Some (code_points "resume") ->
   after = set_last_active before t /\ last_active after = t)
  /\ (decoded_stripped line <> Some (code_points "resume") -> after = before)
  /\ (line = timeout_line -> after = before).
Proof.
  intros Hp Hout Hpre before after.
  assert (Hafter : after = match idle_loop_body before line t with
                           | Ok self' => self'
                           | Raise _ => before
                           end).
  { subst before after. unfold _idle_loop. rewrite Hp, Hout. cbn [negb].
    rewrite (idle_loop_lines_app self pre [(line, t)] Hpre).
    apply idle_loop_lines_last. }
  assert (Hother : decoded_stripped line <> Some (code_points "resume") ->
                   after = before).
  { intros Hne. rewrite Hafter.
    destruct (idle_loop_body_cases before line t)
      as [[H _] | [_ [-> | [_ ->]]]]; [contradiction | reflexivity ..]. }
  split; [| split].
  - intros Hres. rewrite Hafter.
    destruct (idle_loop_body_cases before line t) as [[_ ->] | [H _]];
      [now split | contradiction].
  - exact Hother.
  - intros ->. apply Hother. vm_compute. discriminate.
Qed.

Lemma idle_loop_only_resume_updates_witness :
  Forall (fun l => utf8_decode (fst l) <> None) [(timeout_line, 5%Z)]
  /\ decoded_stripped resume_line = Some (code_points "resume")
  /\ last_active (fst (_idle_loop (monitoring_since 0)
                         ([(timeout_line, 5%Z)] ++ [(resume_line, 9%Z)]))) = 9%Z.
Proof.
  assert (Hpre : Forall (fun l => utf8_decode (fst l) <> None)
                   [(timeout_line, 5%Z)]).
  { constructor; [vm_compute; discriminate | constructor]. }
  split; [exact Hpre |]. split; [reflexivity |].
  destruct (idle_loop_only_resume_updates (monitoring_since 0)
              {| stdout := true |} [(timeout_line, 5%Z)]
              resume_line 9%Z eq_refl eq_refl Hpre) as [H _].
  exact (proj2 (H eq_refl)).
Defined.

(** * Properties of the bridge *)

Section BridgeProofs.

Variable env : Env.

Lemma scan_available_logs backends t :
  exists logs,
    snd (scan_available env backends t) = (t ++ logs)%list
    /\ forallb is_log logs = true.
Proof.
  revert t; induction backends as [| b rest IH]; intros t.
  - exists []. split; [cbn; now rewrite app_nil_r | reflexivity].
  - cbn [scan_available]. unfold bind, lift_outcome.
    destruct (is_available env b) as [[|] | e].
    + eexists. split; reflexivity.
    + apply IH.
    + exists []. split; [cbn; now rewrite app_nil_r | reflexivity].
Qed.

Lemma scan_preferred_logs backends preferred t :
  exists logs,
    snd (scan_preferred env backends preferred t) = (t ++ logs)%list
    /\ forallb is_log logs = true.
Proof.
  induction backends as [| b rest IH].
  - exists []. split; [cbn; now rewrite app_nil_r | reflexivity].
  - cbn [scan_preferred]. destruct (name b =? preferred); [| exact IH].
    unfold bind, lift_outcome.
    destruct (is_available env b) as [[|] | e].
    + eexists. split; reflexivity.
    + eexists. split; reflexivity.
    + exists []. split; [cbn; now rewrite app_nil_r | reflexivity].
Qed.

(** Detection only logs: it spawns nothing and calls no library. *)
Lemma detect_backend_logs preferred t :
  exists logs,
    snd (detect_backend env preferred t) = (t ++ logs)%list
    /\ forallb is_log logs = true.
Proof.
  unfold detect_backend, detect_backend_in, bind.
  destruct (truthy_str preferred).
  - destruct (scan_preferred_logs BACKENDS
                (match preferred with Some p => p | None => "" end) t)
      as (logs & E & Hlogs).
    destruct (scan_preferred env BACKENDS _ t) as [[[b |] | e] t'];
      cbn [snd] in E; subst t'.
    + now exists logs.
    + destruct (scan_available_logs BACKENDS (t ++ logs)%list)
        as (logs' & E' & Hlogs').
      exists (logs ++ logs')%list. rewrite E', app_assoc, forallb_app, Hlogs, Hlogs'.
      now split.
    + now exists logs.
  - unfold ret. apply scan_available_logs.
Qed.

(** C10.  When detection finds no backend, [start] returns [False] and
    leaves the bridge as it was: the only events are log records (no bus
    is created or connected, nothing is registered, no monitor is
    started), and on a freshly constructed bridge the bus and the idle
    monitor stay unset and the running flag stays false. *)
Theorem start_without_backend (self : ScreenshotBridge) (t : trace) :
  fst (detect_backend env (backend_name self) t) = Ok None ->
  exists logs,
    start env self t = (Ok false, self, (t ++ logs)%list)
    /\ forallb is_log logs = true
    /\ (forall backend warn idle,
          self = ScreenshotBridge_init backend warn idle ->
          bus self = None /\ idle_monitor self = None /\ _running self = false).
Proof.
  intros Hnone.
  destruct (detect_backend_logs (backend_name self) t) as (logs & E & Hlogs).
  exists (logs ++ [Log ERROR "No screenshot backend available!";
                   Log ERROR "Install one of: spectacle (KDE), grim (wlroots)"])%list.
  split; [| split].
  - unfold start, bindS at 1, getS. unfold bindS at 1, liftS at 1.
    destruct (detect_backend env (backend_name self) t) as [r t'].
    cbn [fst snd] in Hnone, E. subst r t'.
    unfold bindS, liftS, retS, log, emit. cbn.
    now rewrite <- !app_assoc.
  - rewrite forallb_app, Hlogs. reflexivity.
  - intros backend warn idle ->. now repeat split.
Qed.

Lemma disconnects_app (t t' : trace) :
  disconnects (t ++ t')%list = disconnects t + disconnects t'.
Proof. unfold disconnects. now rewrite filter_app, length_app. Qed.

Lemma disconnects_stop_events self :
  disconnects (stop_events self) = match bus self with Some _ => 1 | None => 0 end.
Proof.
  unfold stop_events.
  destruct (idle_monitor self) as [[la [pr |] [tk |]] |], (bus self);
    reflexivity.
Qed.

(** C2, as the code has it.  [stop] clears the running flag and nothing
    else, so a second [stop] repeats the teardown of the first: when the
    teardown calls of the libraries return, both calls return, the second
    leaves the bridge's fields as the first left them, and
    [bus.disconnect()] is called once by each, twice in all when the bus
    is set. *)
Theorem stop_twice_repeats_teardown (self : ScreenshotBridge) (t : trace) :
  (forall t' c, In c teardown_calls -> lib_raises env t' c = None) ->
  let s1 := set_running false self in
  let t1 := (t ++ stop_events self)%list in
  let t2 := (t1 ++ stop_events self)%list in
  stop env self t = (Ok tt, s1, t1)
  /\ stop env s1 t1 = (Ok tt, s1, t2)
  /\ disconnects t2
     = disconnects t + 2 * match bus self with Some _ => 1 | None => 0 end.
Proof.
  intros Hret s1 t1 t2.
  assert (Hstop : forall s t0,
             stop env s t0 = (Ok tt, set_running false s, (t0 ++ stop_events s)%list)).
  { intros s t0. unfold stop, stop_events, stop_monitoring.
    unfold bindS, modifyS, getS, liftS, retS, bind, ret, lib_call, log, emit.
    cbn [idle_monitor bus set_running].
    destruct (idle_monitor s) as [[la [pr |] [tk |]] |], (bus s) as [b |];
      cbn [_monitor_task _monitor_process];
      repeat (rewrite Hret by (cbn; tauto));
      rewrite <- ?app_assoc; cbn [app]; try rewrite app_nil_r; reflexivity. }
  split; [apply Hstop |]. split.
  - subst s1 t1 t2. rewrite Hstop. reflexivity.
  - subst t2 t1. rewrite !disconnects_app, disconnects_stop_events.
    destruct (bus self); lia.
Qed.

End BridgeProofs.

Lemma start_without_backend_witness :
  fst (detect_backend env_no_tools None []) = Ok None
  /\ exists logs,
       start env_no_tools (ScreenshotBridge_init None false true) []
       = (Ok false, ScreenshotBridge_init None false true, logs)
       /\ forallb is_log logs = true.
Proof.
  split; [reflexivity |].
  destruct (start_without_backend env_no_tools
              (ScreenshotBridge_init None false true) [] eq_refl)
    as (logs & E & Hlogs & _).
  exists logs. split; [exact E | exact Hlogs].
Defined.

Lemma stop_twice_repeats_teardown_witness :
  (forall t' c, In c teardown_calls -> lib_raises env_all_tools t' c = None)
  /\ disconnects (snd (stop env_all_tools
                         (set_running false running_bridge)
                         (snd (stop env_all_tools running_bridge [])))) = 2.
Proof.
  assert (H : forall t' c, In c teardown_calls ->
                           lib_raises env_all_tools t' c = None)
    by reflexivity.
  split; [exact H |].
  destruct (stop_twice_repeats_teardown env_all_tools running_bridge [] H)
    as (E1 & E2 & E3).
  rewrite E1. cbn [snd]. rewrite E2. cbn [snd]. exact E3.
Defined.

(** C2 as stated fails: on a running bridge without idle tracking, the
    second [stop] is not a no-op; it calls [bus.disconnect()] again. *)
Lemma second_stop_disconnects_again :
  exists t1 t2,
    stop env_all_tools running_bridge [] = (Ok tt, set_running false running_bridge, t1)
    /\ stop env_all_tools (set_running false running_bridge) t1
       = (Ok tt, set_running false running_bridge, t2)
    /\ t2 <> t1
    /\ disconnects t2 = 2
    /\ disconnects t2 <> 1.
Proof.
  exists [Lib BusDisconnect; Log INFO "Bridge stopped"].
  exists [Lib BusDisconnect; Log INFO "Bridge stopped";
          Lib BusDisconnect; Log INFO "Bridge stopped"].
  repeat split; try reflexivity; discriminate.
Qed.

(** [stop] has no handler of its own: where terminating the reaped child
    raises, the second [stop] raises too, before it reaches the bus. *)
Example second_stop_raises_on_reaped_child :
  exists t1 t2,
    stop env_reaped_child monitoring_bridge []
    = (Ok tt, set_running false monitoring_bridge, t1)
    /\ stop env_reaped_child (set_running false monitoring_bridge) t1
       = (Raise ProcessLookupError, set_running false monitoring_bridge, t2)
    /\ disconnects t2 = 1.
Proof.
  do 2 eexists. repeat split.
Qed.

(** Decimal rendering of the integers of a request. *)
Example str_int_samples :
  str_int 0 = "0" /\ str_int 1920 = "1920" /\ str_int (-7) = "-7".
Proof. repeat split. Qed.

(** Lines that do and do not denote a resume event. *)
Example denotes_resume_samples :
  denotes_resume resume_line = Ok true
  /\ denotes_resume timeout_line = Ok false
  /\ denotes_resume (list_byte_of_string "  resume") = Ok true
  /\ denotes_resume (list_byte_of_string "resumed") = Ok false
  /\ denotes_resume [xc2; xa0; x72; x65; x73; x75; x6d; x65; xe2; x80; xa8] = Ok true
  /\ denotes_resume [xff] = Raise UnicodeDecodeError.
Proof. repeat split. Qed.

(** * Further properties of backend detection *)

Section DetectMoreProofs.

Variable env : Env.

Lemma scan_preferred_miss backends preferred t :
  (forall b, In b backends -> name b <> preferred) ->
  scan_preferred env backends preferred t = (Ok None, t).
Proof.
  induction backends as [| b rest IH]; intros Hmiss; [reflexivity |].
  cbn [scan_preferred].
  destruct (name b =? preferred) eqn:E.
  - apply String.eqb_eq in E. now destruct (Hmiss b (or_introl eq_refl)).
  - apply IH. intros b' Hb'. apply Hmiss. now right.
Qed.

Lemma scan_preferred_unavailable backends b t :
  In b backends -> is_available env b = Ok false ->
  scan_preferred env backends (name b) t
  = (Ok None,
     (t ++ [Log WARNING ("Preferred backend '" ++ name b ++ "' not available")])%list).
Proof.
  intros Hin Hav. induction backends as [| b0 rest IH]; [destruct Hin |].
  cbn [scan_preferred]. destruct (name b0 =? name b) eqn:E.
  - apply String.eqb_eq, name_inj in E. subst b0.
    unfold bind, lift_outcome. rewrite Hav. reflexivity.
  - apply IH. destruct Hin as [-> | Hin]; [| exact Hin].
    rewrite String.eqb_refl in E. discriminate.
Qed.

(** What the first loop can return on the registered backends. *)
Lemma scan_preferred_registered preferred t :
  (exists b, fst (scan_preferred env BACKENDS preferred t) = Ok (Some b)
             /\ In b BACKENDS /\ which env (name b) = true)
  \/ fst (scan_preferred env BACKENDS preferred t) = Ok None.
Proof.
  unfold BACKENDS. cbn [scan_preferred name is_available].
  unfold bind, lift_outcome, log, emit, ret.
  repeat match goal with
         | |- context [if ?c then _ else _] => destruct c eqn:?
         end; cbn [fst];
    try (right; reflexivity);
    left; eexists; (split; [reflexivity |]); cbn; auto.
Qed.

(** X1.  A preferred name that matches a registered but unavailable
    backend is not an error: a warning is logged and detection goes on as
    if no name had been given, with the same result. *)
Theorem detect_backend_preferred_unavailable
  (b : backend_cls) (preferred : string) (t : trace) :
  In b BACKENDS -> name b = preferred -> is_available env b = Ok false ->
  detect_backend env (Some preferred) t
  = detect_backend env None
      (t ++ [Log WARNING ("Preferred backend '" ++ preferred ++ "' not available")])%list
  /\ fst (detect_backend env (Some preferred) t) = fst (detect_backend env None t).
Proof.
  intros Hin <- Hav.
  assert (E : detect_backend env (Some (name b)) t
              = detect_backend env None
                  (t ++ [Log WARNING ("Preferred backend '" ++ name b
                                      ++ "' not available")])%list).
  { unfold detect_backend, detect_backend_in. rewrite name_truthy.
    cbn [truthy_str]. unfold bind at 1.
    rewrite (scan_preferred_unavailable BACKENDS b t Hin Hav). reflexivity. }
  split; [exact E |].
  rewrite E, !detect_backend_none_find. reflexivity.
Qed.

(** X2.  A preferred name that matches no registered backend (the empty
    string included) is ignored silently: result and log are those of
    detection without a name. *)
Theorem detect_backend_unknown_name (preferred : string) (t : trace) :
  (forall b, In b BACKENDS -> name b <> preferred) ->
  detect_backend env (Some preferred) t = detect_backend env None t.
Proof.
  intros Hmiss. unfold detect_backend, detect_backend_in.
  destruct (truthy_str (Some preferred)); cbn [truthy_str]; [| reflexivity].
  unfold bind at 1. rewrite (scan_preferred_miss BACKENDS preferred t Hmiss).
  reflexivity.
Qed.

(** X3.  Whatever name is preferred, detection never raises, what it
    returns is a registered backend whose executable resolves, and it
    returns nothing exactly when no registered backend is available. *)
Theorem detect_backend_sound (preferred : option string) (t : trace) :
  (exists r, fst (detect_backend env preferred t) = Ok r)
  /\ (forall b, fst (detect_backend env preferred t) = Ok (Some b) ->
                In b BACKENDS /\ is_available env b = Ok true)
  /\ (fst (detect_backend env preferred t) = Ok None <->
      forall b, In b BACKENDS -> which env (name b) = false).
Proof.
  assert (Hauto : forall t0 r,
             fst (scan_available env BACKENDS t0) = Ok r ->
             (forall b, r = Some b -> In b BACKENDS /\ which env (name b) = true)
             /\ (r = None <-> forall b, In b BACKENDS -> which env (name b) = false)).
  { intros t0 r Hr.
    rewrite (scan_available_find env BACKENDS t0 (is_available_registered env))
      in Hr.
    apply Ok_inj in Hr. subst r. split.
    - intros b Hb. apply find_some in Hb. exact Hb.
    - split.
      + intros Hn b Hb. exact (find_none _ _ Hn b Hb).
      + intros Hall.
        destruct (find (fun b => which env (name b)) BACKENDS) as [b |] eqn:F;
          [| reflexivity].
        apply find_some in F. destruct F as [Hb Hw].
        rewrite (Hall b Hb) in Hw. discriminate. }
  assert (Hcases :
            (exists b, fst (detect_backend env preferred t) = Ok (Some b)
                       /\ In b BACKENDS /\ which env (name b) = true)
            \/ (exists t0, fst (detect_backend env preferred t)
                           = fst (scan_available env BACKENDS t0))).
  { unfold detect_backend, detect_backend_in.
    destruct (truthy_str preferred).
    - unfold bind.
      destruct (scan_preferred_registered
                  (match preferred with Some p => p | None => "" end) t)
        as [(b & E & Hb & Hw) | E];
        destruct (scan_preferred env BACKENDS _ t) as [r t'];
        cbn [fst] in E; subst r.
      + left. exists b. cbn [fst]. unfold ret. cbn [fst]. now repeat split.
      + right. exists t'. reflexivity.
    - right. exists t. reflexivity. }
  destruct Hcases as [(b & E & Hb & Hw) | (t0 & E)].
  - rewrite E. split; [now exists (Some b) |]. split.
    + intros b' Hb'. apply Ok_inj in Hb'. injection Hb' as <-.
      split; [exact Hb |]. now rewrite is_available_registered, Hw.
    + split; [discriminate |].
      intros Hall. rewrite (Hall b Hb) in Hw. discriminate.
  - rewrite E.
    destruct (Hauto t0 (find (fun b => which env (name b)) BACKENDS)) as [Hs Hn].
    { apply scan_available_find, is_available_registered. }
    rewrite (scan_available_find env BACKENDS t0 (is_available_registered env)).
    split; [eexists; reflexivity |]. split.
    + intros b Hb. apply Ok_inj in Hb. destruct (Hs b Hb) as [Hin Hw].
      split; [exact Hin |]. now rewrite is_available_registered, Hw.
    + rewrite <- Hn. split; [apply Ok_inj | now intros ->].
Qed.

End DetectMoreProofs.

Lemma detect_backend_preferred_unavailable_witness :
  In SpectacleBackend BACKENDS
  /\ is_available env_only_grim SpectacleBackend = Ok false
  /\ detect_backend env_only_grim (Some "spectacle") []
     = (Ok (Some GrimBackend),
        [Log WARNING "Preferred backend 'spectacle' not available";
         Log INFO "Auto-detected backend: grim"]).
Proof.
  assert (Hin : In SpectacleBackend BACKENDS) by (cbn; auto).
  split; [exact Hin |]. split; [reflexivity |].
  destruct (detect_backend_preferred_unavailable env_only_grim
              SpectacleBackend "spectacle" [] Hin eq_refl eq_refl) as [E _].
  rewrite E. reflexivity.
Defined.

Lemma detect_backend_unknown_name_witness :
  (forall b, In b BACKENDS -> name b <> "scrot")
  /\ detect_backend env_only_grim (Some "scrot") []
     = (Ok (Some GrimBackend), [Log INFO "Auto-detected backend: grim"]).
Proof.
  assert (H : forall b, In b BACKENDS -> name b <> "scrot").
  { intros b [<- | [<- | [<- | []]]]; discriminate. }
  split; [exact H |].
  rewrite (detect_backend_unknown_name env_only_grim "scrot" [] H).
  reflexivity.
Defined.

(** * Further properties of the backends and the interface *)

Section CaptureMoreProofs.

Variable env : Env.

(** A backend operation is a fixed outcome and a fixed list of events,
    whatever happened before it. *)
Lemma delegate_shape cls req filename :
  exists r es, forall t,
    delegate env cls req filename t = (r, (t ++ es)%list).
Proof.
  destruct cls, req as [ic | fr ic | x y w h]; cbn;
    unfold raise, bind, subprocess_run, log, emit, ret; cbn;
    try (exists (Raise NotImplementedError), []; intros t;
         now rewrite app_nil_r);
    match goal with
    | |- context [run env ?c] => destruct (run env c)
    end;
    eexists; eexists; intros t; rewrite <- ?app_assoc; reflexivity.
Qed.


Lemma serve_outcome self req flash filename t0 t :
  fst (serve env self req flash filename t)
  = Ok (match fst (delegate env (backend self) req filename t0) with
        | Ok success => success
        | Raise _ => false
        end, filename).
Proof.
  rewrite serve_spec.
  rewrite (delegate_outcome_indep env (backend self) req filename t0
             (t ++ request_record req filename :: warn_events self)%list).
  destruct (delegate env (backend self) req filename _) as [[success | e] t'];
    reflexivity.
Qed.

(** X5.  The success flag a method returns is the backend operation's
    own result when that operation returns, and false when it raises. *)
Theorem interface_reports_backend_result self req flash filename t0 t :
  fst (serve env self req flash filename t)
  = Ok (match fst (delegate env (backend self) req filename t0) with
        | Ok success => success
        | Raise _ => false
        end, filename).
Proof.
  apply serve_outcome.
Qed.

(** X6.  The notification before a capture is best effort: with
    [warn_before] set, the method spawns notify-send once, after logging
    the request and before the backend runs, and whatever notify-send
    does, the method returns what it returns with [warn_before] unset and
    the other events are the same. *)
Theorem interface_warning_is_best_effort
  (cls : backend_cls) (req : capture_request) (flash : bool)
  (filename : string) (t : trace) :
  let quiet := {| backend := cls; warn_before := false |} in
  let warned := {| backend := cls; warn_before := true |} in
  fst (serve env warned req flash filename t)
  = fst (serve env quiet req flash filename t)
  /\ exists es,
       snd (serve env quiet req flash filename t)
       = (t ++ request_record req filename :: es)%list
       /\ snd (serve env warned req flash filename t)
          = (t ++ request_record req filename
               :: Run ["notify-send"; "-u"; "normal"; "-t"; "2000";
                       "Screenshot"; "A screenshot will be taken..."]
               :: es)%list.
Proof.
  intros quiet warned.
  destruct (delegate_shape cls req filename) as (r & es & Hshape).
  rewrite !serve_spec. subst quiet warned. cbn [backend warn_events warn_before].
  rewrite !Hshape. destruct r as [success | e]; cbn [fst snd].
  - split; [reflexivity |].
    exists (es ++ [result_record req success filename])%list.
    rewrite <- !app_assoc. cbn [app]. split; reflexivity.
  - split; [reflexivity |].
    exists (es ++ [error_record req e])%list.
    rewrite <- !app_assoc. cbn [app]. split; reflexivity.
Qed.

(** X7.  Through the interface, a capture kind the backend lacks gives
    what a full-screen capture of the same file gives: [ScreenshotArea]
    on spectacle and on gnome-screenshot returns what [Screenshot] without
    cursor returns, and [ScreenshotWindow] on grim returns what
    [Screenshot] with the same cursor flag returns. *)
Theorem interface_degraded_request_as_full
  (warn flash flash' : bool) (filename : string)
  (x y width height : Z) (include_frame include_cursor : bool) (t t' : trace) :
  (forall cls, cls = SpectacleBackend \/ cls = GnomeScreenshotBackend ->
     fst (serve env {| backend := cls; warn_before := warn |}
            (Area x y width height) flash filename t)
     = fst (serve env {| backend := cls; warn_before := warn |}
              (Full false) flash' filename t'))
  /\ fst (serve env {| backend := GrimBackend; warn_before := warn |}
            (Window include_frame include_cursor) flash filename t)
     = fst (serve env {| backend := GrimBackend; warn_before := warn |}
              (Full include_cursor) flash' filename t').
Proof.
  split.
  - intros cls Hcls.
    rewrite (serve_outcome _ (Area x y width height) flash filename []).
    rewrite (serve_outcome _ (Full false) flash' filename []).
    destruct Hcls as [-> | ->]; cbn;
      unfold bind, subprocess_run, log, emit, ret, raise; cbn;
      run_cases; reflexivity.
  - rewrite (serve_outcome _ (Window include_frame include_cursor)
               flash filename []).
    rewrite (serve_outcome _ (Full include_cursor) flash' filename []).
    destruct include_cursor; cbn;
      unfold bind, subprocess_run, log, emit, ret, raise; cbn;
      run_cases; reflexivity.
Qed.

End CaptureMoreProofs.


(** * Further properties of the idle monitor *)

Section MonitorMoreProofs.

Variable env : Env.

Ltac lib_cases :=
  repeat match goal with
         | |- context [lib_raises env ?t ?c] => destruct (lib_raises env t c)
         end.

(** X8.  [start_monitoring] never raises.  It returns true only when
    swayidle resolves, and then the process and the read task are set; it
    returns false with a warning logged and no task set otherwise; the
    timestamp is not touched; and without swayidle on the path nothing is
    spawned and the monitor is left as it was. *)
Theorem start_monitoring_outcome (self : IdleMonitorInterface) (t : trace) :
  exists r self' es,
    start_monitoring env self t = (Ok r, self', (t ++ es)%list)
    /\ last_active self' = last_active self
    /\ (r = true ->
        which env "swayidle" = true
        /\ _monitor_process self' = Some {| stdout := true |}
        /\ _monitor_task self' = Some IdleLoopTask)
    /\ (r = false ->
        _monitor_task self' = _monitor_task self
        /\ In (Log WARNING "No idle monitor available, idle time will not be tracked") es)
    /\ (which env "swayidle" = false ->
        self' = self
        /\ es = [Log WARNING "No idle monitor available, idle time will not be tracked"]).
Proof.
  unfold start_monitoring, try_exceptS, bindS, liftS, modifyS, retS,
    lib_call, log, emit.
  destruct (which env "swayidle") eqn:W; lib_cases;
    rewrite <- ?app_assoc; cbn [app];
    do 3 eexists; (split; [reflexivity |]);
    cbn; intuition (try discriminate; auto).
Qed.

(** X9.  When the helper cannot be started (swayidle is not on the path,
    or spawning it raises), [start_monitoring] on a monitor without
    process and task returns false and leaves it so, and a
    [stop_monitoring] after it does nothing at all. *)
Theorem stop_after_failed_start_monitoring (self : IdleMonitorInterface) (t : trace) :
  _monitor_process self = None -> _monitor_task self = None ->
  which env "swayidle" = false
  \/ (exists e, lib_raises env t (SpawnExec swayidle_cmd) = Some e) ->
  exists t',
    start_monitoring env self t = (Ok false, self, t')
    /\ stop_monitoring env self t' = (Ok tt, t').
Proof.
  intros Hp Ht Hfail.
  assert (Hstop : forall t', stop_monitoring env self t' = (Ok tt, t')).
  { intros t'. unfold stop_monitoring. rewrite Hp, Ht. reflexivity. }
  unfold start_monitoring, try_exceptS, bindS, liftS, modifyS, retS,
    lib_call, log, emit.
  destruct (which env "swayidle") eqn:W.
  - destruct Hfail as [Hw | [e He]]; [discriminate |]. rewrite He.
    eexists. split; [reflexivity | apply Hstop].
  - eexists. split; [reflexivity | apply Hstop].
Qed.

(** X10.  When swayidle resolves and the library calls return,
    [start_monitoring] spawns the helper with its fixed arguments, creates
    the read task and returns true; [stop_monitoring] then cancels and
    awaits the task before it terminates the process and waits for it. *)
Theorem start_then_stop_monitoring (self : IdleMonitorInterface) (t : trace) :
  which env "swayidle" = true ->
  (forall t' c, lib_raises env t' c = None) ->
  let self' := set_monitor_task (Some IdleLoopTask)
                 (set_monitor_process (Some {| stdout := true |}) self) in
  let t1 := (t ++ [Lib (SpawnExec ["swayidle"; "-w"; "timeout"; "1";
                                   "echo timeout"; "resume"; "echo resume"]);
                   Lib CreateTask;
                   Log INFO "Started swayidle idle monitor"])%list in
  start_monitoring env self t = (Ok true, self', t1)
  /\ stop_monitoring env self' t1
     = (Ok tt, (t1 ++ [Lib TaskCancel; Lib TaskAwait;
                       Lib ProcTerminate; Lib ProcWait])%list).
Proof.
  intros W Hret self' t1. split.
  - unfold start_monitoring, try_exceptS, bindS, liftS, modifyS, retS,
      lib_call, log, emit.
    rewrite W, !Hret. subst t1. rewrite <- !app_assoc. reflexivity.
  - unfold stop_monitoring, bind, lib_call, ret. subst self'.
    cbn [_monitor_task _monitor_process set_monitor_task set_monitor_process].
    rewrite !Hret. rewrite <- !app_assoc. reflexivity.
Qed.

End MonitorMoreProofs.

Lemma stop_after_failed_start_monitoring_witness :
  _monitor_process (IdleMonitorInterface_init 0) = None
  /\ _monitor_task (IdleMonitorInterface_init 0) = None
  /\ which env_no_tools "swayidle" = false
  /\ exists t',
       start_monitoring env_no_tools (IdleMonitorInterface_init 0) []
       = (Ok false, IdleMonitorInterface_init 0, t')
       /\ stop_monitoring env_no_tools (IdleMonitorInterface_init 0) t' = (Ok tt, t').
Proof.
  repeat (split; [reflexivity |]).
  apply (stop_after_failed_start_monitoring env_no_tools
           (IdleMonitorInterface_init 0) [] eq_refl eq_refl).
  left. reflexivity.
Defined.

Lemma start_then_stop_monitoring_witness :
  which env_all_tools "swayidle" = true
  /\ (forall t' c, lib_raises env_all_tools t' c = None)
  /\ fst (fst (start_monitoring env_all_tools (IdleMonitorInterface_init 0) []))
     = Ok true.
Proof.
  split; [reflexivity |]. split; [reflexivity |].
  destruct (start_then_stop_monitoring env_all_tools (IdleMonitorInterface_init 0) []
              eq_refl (fun _ _ => eq_refl)) as [E _].
  rewrite E. reflexivity.
Defined.

(** * Further properties of the read loop *)

Lemma set_last_active_handles self t :
  _monitor_process (set_last_active self t) = _monitor_process self
  /\ _monitor_task (set_last_active self t) = _monitor_task self.
Proof. now split. Qed.

(** One iteration: the new state and whether the loop goes on. *)
Lemma idle_loop_body_result self line t :
  (exists self', idle_loop_body self line t = Ok self'
                 /\ (self' = self \/ self' = set_last_active self t)
                 /\ utf8_decode line <> None)
  \/ (idle_loop_body self line t = Raise UnicodeDecodeError
      /\ utf8_decode line = None).
Proof.
  unfold idle_loop_body, denotes_resume.
  destruct (utf8_decode line) as [text |].
  - left. destruct (str_eqb (strip text) (code_points "resume"));
      eexists; (split; [reflexivity |]); (split; [auto | discriminate]).
  - right. now split.
Qed.



(** Either the loop gets through a prefix, or it stopped inside it. *)
Lemma idle_loop_lines_prefix l1 l2 : forall self,
  idle_loop_lines self (l1 ++ l2)
  = idle_loop_lines (fst (idle_loop_lines self l1)) l2
  \/ idle_loop_lines self (l1 ++ l2) = idle_loop_lines self l1.
Proof.
  induction l1 as [| [line t] rest IH]; intros self; [now left |].
  cbn [app idle_loop_lines].
  destruct (idle_loop_body self line t) as [self' | e]; [apply IH | now right].
Qed.


(** The timestamp after the loop is the initial one or the time of a line. *)
Lemma idle_loop_lines_timestamp lines : forall self,
  last_active (fst (idle_loop_lines self lines)) = last_active self
  \/ In (last_active (fst (idle_loop_lines self lines))) (map snd lines).
Proof.
  induction lines as [| [line t] rest IH]; intros self; [now left |].
  cbn [idle_loop_lines map snd].
  destruct (idle_loop_body_result self line t)
    as [(self' & -> & [-> | ->] & _) | [-> _]]; [| | now left].
  - destruct (IH self) as [H | H]; [now left | right; now right].
  - destruct (IH (set_last_active self t)) as [H | H].
    + right. left. now rewrite H.
    + right. now right.
Qed.

Lemma idle_loop_lines_monotone lines : forall self,
  StronglySorted Z.le (last_active self :: map snd lines) ->
  (last_active self <= last_active (fst (idle_loop_lines self lines)))%Z.
Proof.
  induction lines as [| [line t] rest IH]; intros self Hs; [cbn; lia |].
  cbn [idle_loop_lines]. cbn [map snd] in Hs.
  apply StronglySorted_inv in Hs. destruct Hs as [Hs Hle].
  apply StronglySorted_inv in Hs. destruct Hs as [Hrest Ht].
  apply Forall_cons_iff in Hle. destruct Hle as [Hlt Hle].
  destruct (idle_loop_body_result self line t)
    as [(self' & -> & [-> | ->] & _) | [-> _]]; [| | cbn; lia].
  - apply IH. now constructor.
  - transitivity t; [exact Hlt |].
    apply (IH (set_last_active self t)). now constructor.
Qed.

Lemma idle_loop_unfold self :
  (forall lines, _idle_loop self lines = idle_loop_lines self lines)
  \/ (forall lines, _idle_loop self lines = (self, [])).
Proof.
  unfold _idle_loop. destruct (_monitor_process self) as [[[|]] |]; auto.
Qed.

(** X11.  With a clock that does not run backwards, the last-activity
    timestamp never decreases while the loop reads: after any prefix of
    the lines it is at least what it was at the start, and after more
    lines it is at least what it was after the prefix. *)
Theorem idle_loop_timestamp_never_decreases
  (self : IdleMonitorInterface) (l1 l2 : list (list byte * Z)) :
  StronglySorted Z.le (last_active self :: map snd (l1 ++ l2)) ->
  (last_active self <= last_active (fst (_idle_loop self l1))
   <= last_active (fst (_idle_loop self (l1 ++ l2))))%Z.
Proof.
  intros Hs.
  destruct (idle_loop_unfold self) as [E | E];
    [| rewrite !E; cbn; lia].
  rewrite !E. clear E.
  rewrite map_app in Hs.
  apply StronglySorted_inv in Hs. destruct Hs as [Hs Hle].
  apply Forall_app in Hle. destruct Hle as [Hle1 Hle2].
  assert (Hs1 : StronglySorted Z.le (map snd l1) /\
                StronglySorted Z.le (map snd l2) /\
                forall a, In a (map snd l1) -> Forall (Z.le a) (map snd l2)).
  { clear Hle1 Hle2. induction (map snd l1) as [| a m IHm]; cbn in Hs.
    - repeat split; [constructor | exact Hs | intros a []].
    - apply StronglySorted_inv in Hs. destruct Hs as [Hs Ha].
      apply Forall_app in Ha. destruct Ha as [Ha1 Ha2].
      destruct (IHm Hs) as (S1 & S2 & Hall).
      repeat split; [now constructor | exact S2 |].
      intros b [<- | Hb]; [exact Ha2 | now apply Hall]. }
  destruct Hs1 as (S1 & S2 & Hall).
  split.
  - apply idle_loop_lines_monotone. now constructor.
  - destruct (idle_loop_lines_prefix l1 l2 self) as [-> | ->]; [| lia].
    apply idle_loop_lines_monotone. constructor; [exact S2 |].
    destruct (idle_loop_lines_timestamp l1 self) as [-> | Hin];
      [exact Hle2 | now apply Hall].
Qed.



Lemma idle_loop_timestamp_never_decreases_witness :
  StronglySorted Z.le
    (last_active (monitoring_since 3)
       :: map snd ([(resume_line, 5%Z)] ++ [(timeout_line, 6%Z); (resume_line, 8%Z)]))
  /\ (3 <= last_active (fst (_idle_loop (monitoring_since 3) [(resume_line, 5%Z)]))
      <= last_active (fst (_idle_loop (monitoring_since 3)
                             ([(resume_line, 5%Z)]
                              ++ [(timeout_line, 6%Z); (resume_line, 8%Z)]))))%Z.
Proof.
  assert (H : StronglySorted Z.le
                (last_active (monitoring_since 3)
                   :: map snd ([(resume_line, 5%Z)]
                               ++ [(timeout_line, 6%Z); (resume_line, 8%Z)]))).
  { cbn. repeat constructor; lia. }
  split; [exact H |].
  exact (idle_loop_timestamp_never_decreases (monitoring_since 3)
           [(resume_line, 5%Z)] [(timeout_line, 6%Z); (resume_line, 8%Z)] H).
Defined.


(** * Which lines denote a resume event *)

Lemma forallb_rev_spaces (l : list N) :
  forallb is_space (rev l) = forallb is_space l.
Proof.
  induction l as [| c l IH]; [reflexivity |].
  cbn [rev forallb]. rewrite forallb_app, IH. cbn [forallb].
  rewrite andb_true_r. apply andb_comm.
Qed.

Lemma lstrip_split (s : list N) :
  exists l, s = (l ++ lstrip s)%list /\ forallb is_space l = true.
Proof.
  induction s as [| c s (l & E & Hl)]; [now exists [] |].
  cbn [lstrip]. destruct (is_space c) eqn:Hc.
  - exists (c :: l). cbn [app forallb]. rewrite Hc, Hl. split; [now f_equal | reflexivity].
  - now exists [].
Qed.

Lemma lstrip_spaces_app (l s : list N) :
  forallb is_space l = true -> lstrip (l ++ s) = lstrip s.
Proof.
  induction l as [| c l IH]; [reflexivity |].
  cbn [forallb app lstrip]. intros H. apply andb_true_iff in H.
  destruct H as [-> H]. now apply IH.
Qed.

Lemma strip_split (s : list N) :
  exists l r,
    s = (l ++ strip s ++ r)%list
    /\ forallb is_space l = true /\ forallb is_space r = true.
Proof.
  destruct (lstrip_split s) as (l & Es & Hl).
  destruct (lstrip_split (rev (lstrip s))) as (l' & Er & Hl').
  exists l, (rev l'). unfold strip, rstrip. repeat split.
  - rewrite <- rev_app_distr, <- Er, rev_involutive. exact Es.
  - exact Hl.
  - now rewrite forallb_rev_spaces.
Qed.

Lemma strip_padded (l m r : list N) (c d : N) (m' m'' : list N) :
  m = c :: m' -> rev m = d :: m'' ->
  is_space c = false -> is_space d = false ->
  forallb is_space l = true -> forallb is_space r = true ->
  strip (l ++ m ++ r) = m.
Proof.
  intros Em Erev Hc Hd Hl Hr. unfold strip, rstrip.
  rewrite (lstrip_spaces_app l _ Hl).
  assert (E1 : lstrip (m ++ r) = (m ++ r)%list).
  { rewrite Em. cbn [app lstrip]. now rewrite Hc. }
  rewrite E1, rev_app_distr.
  rewrite lstrip_spaces_app by now rewrite forallb_rev_spaces.
  rewrite Erev. cbn [lstrip]. rewrite Hd, <- Erev. apply rev_involutive.
Qed.

(** X14.  A line denotes a resume event exactly when it is valid UTF-8
    and its text is the word "resume" with nothing but white space before
    and after it. *)
Theorem denotes_resume_iff_padded_word (line : list byte) :
  denotes_resume line = Ok true <->
  exists l r,
    utf8_decode line = Some (l ++ code_points "resume" ++ r)%list
    /\ forallb is_space l = true /\ forallb is_space r = true.
Proof.
  rewrite denotes_resume_true. unfold decoded_stripped.
  destruct (utf8_decode line) as [text |]; cbn [option_map].
  - split.
    + intros H. assert (Hs : strip text = code_points "resume") by congruence.
      destruct (strip_split text) as (l & r & E & Hl & Hr).
      exists l, r. rewrite <- Hs, <- E. now repeat split.
    + intros (l & r & E & Hl & Hr).
      assert (Et : text = (l ++ code_points "resume" ++ r)%list) by congruence.
      rewrite Et. f_equal.
      apply (strip_padded l (code_points "resume") r 114%N 101%N
               (code_points "esume") (code_points "muser"));
        solve [reflexivity | assumption].
  - split; [discriminate |]. intros (l & r & E & _). discriminate.
Qed.

(** * Further properties of the bridge *)

Section BridgeMoreProofs.

Variable env : Env.

Lemma set_running_same (self : ScreenshotBridge) :
  _running self = false -> set_running false self = self.
Proof. destruct self; cbn; now intros ->. Qed.

(** [stop] when the teardown calls return. *)
Lemma stop_returns (self : ScreenshotBridge) (t : trace) :
  (forall t' c, In c teardown_calls -> lib_raises env t' c = None) ->
  stop env self t = (Ok tt, set_running false self, (t ++ stop_events self)%list).
Proof.
  intros Hret. unfold stop, stop_events, stop_monitoring.
  unfold bindS, modifyS, getS, liftS, retS, bind, ret, lib_call, log, emit.
  cbn [idle_monitor bus set_running].
  destruct (idle_monitor self) as [[la [pr |] [tk |]] |], (bus self) as [b |];
    cbn [_monitor_task _monitor_process];
    repeat (rewrite Hret by (cbn; tauto));
    rewrite <- ?app_assoc; cbn [app]; try rewrite app_nil_r; reflexivity.
Qed.

(** The monitor's teardown never touches the bus. *)
Lemma stop_monitoring_no_disconnect mon t :
  disconnects (snd (stop_monitoring env mon t)) = disconnects t.
Proof.
  unfold stop_monitoring, bind, ret, lib_call.
  destruct (_monitor_task mon), (_monitor_process mon);
    repeat match goal with
           | |- context [lib_raises env ?t ?c] => destruct (lib_raises env t c)
           end;
    cbn [snd]; rewrite ?disconnects_app; cbn; lia.
Qed.

Lemma logs_no_disconnect (logs : list event) :
  forallb is_log logs = true -> disconnects logs = 0.
Proof.
  unfold disconnects. induction logs as [| e logs IH]; [reflexivity |].
  cbn [forallb filter]. intros H. apply andb_true_iff in H. destruct H as [He H].
  destruct e as [lvl msg | cmd | c]; try discriminate. cbn. now apply IH.
Qed.

(** [start] when a backend is detected and the library calls return. *)
Lemma start_returns (self : ScreenshotBridge) (b : backend_cls) (t : trace) :
  fst (detect_backend env (backend_name self) t) = Ok (Some b) ->
  (forall t' c, lib_raises env t' c = None) ->
  exists mon es,
    start env self t
    = (Ok true,
       set_running true
         (set_idle_monitor (if enable_idle self then Some mon else idle_monitor self)
            (set_bus (Some SessionBus) self)),
       (t ++ es)%list)
    /\ disconnects es = 0
    /\ In (Lib BusConnect) es
    /\ In (Lib (BusExport "/org/gnome/Shell/Screenshot" "org.gnome.Shell.Screenshot")) es
    /\ In (Lib (BusRequestName "org.gnome.Shell.Screenshot")) es
    /\ (enable_idle self = true ->
        In (Lib (BusExport "/org/gnome/Mutter/IdleMonitor/Core"
                   "org.gnome.Mutter.IdleMonitor")) es
        /\ In (Lib (BusRequestName "org.gnome.Mutter.IdleMonitor")) es)
    /\ (enable_idle self = true ->
        (_monitor_process mon <> None <-> which env "swayidle" = true)
        /\ (_monitor_task mon <> None <-> which env "swayidle" = true)).
Proof.
  intros Hdet Hret.
  destruct (detect_backend_logs env (backend_name self) t) as (logs & E & Hlogs).
  unfold start, bindS at 1, getS. unfold bindS at 1, liftS at 1.
  destruct (detect_backend env (backend_name self) t) as [r t'].
  cbn [fst snd] in Hdet, E. subst r t'.
  unfold bindS, liftS, modifyS, retS, lib_call, log, emit, on_idle_monitor,
    start_monitoring, try_exceptS, bindS, liftS, modifyS, retS, lib_call, log, emit.
  repeat (rewrite Hret; cbv beta iota zeta).
  destruct (enable_idle self) eqn:EI; [destruct (which env "swayidle") eqn:W |];
    repeat (rewrite ?Hret; cbv beta iota zeta; cbn [idle_monitor set_idle_monitor]).
  all: rewrite <- ?app_assoc; cbn [app].
  all: match goal with
       | |- exists _ _, (_, set_running true (set_idle_monitor (Some ?m) _), _) = _ /\ _ =>
           exists m
       | |- _ => exists (IdleMonitorInterface_init 0)
       end.
  all: eexists; (split; [reflexivity |]).
  all: rewrite disconnects_app, (logs_no_disconnect logs Hlogs).
  all: split; [reflexivity |].
  all: repeat split; try (apply in_or_app; right; cbn; tauto);
    try discriminate; try reflexivity; cbn; congruence.
Qed.



(** X15.  [stop] assigns the running flag and no other field, whether the
    teardown returns or raises: the bus and the idle monitor stay set. *)
Theorem stop_only_clears_running (self : ScreenshotBridge) (t : trace) :
  snd (fst (stop env self t)) = set_running false self.
Proof.
  unfold stop, bindS, modifyS, getS, liftS, retS, log, emit.
  cbn [idle_monitor bus set_running].
  destruct (idle_monitor self) as [mon |].
  - destruct (stop_monitoring env mon t) as [[[] | e] t1]; [| reflexivity].
    destruct (bus self); [| reflexivity].
    unfold lib_call. destruct (lib_raises env t1 BusDisconnect); reflexivity.
  - destruct (bus self); [| reflexivity].
    unfold lib_call. destruct (lib_raises env t BusDisconnect); reflexivity.
Qed.

(** X16.  After a [start] that found no backend, [stop] on the freshly
    constructed bridge is harmless: it makes no library call, logs that
    the bridge stopped, and leaves the bridge as constructed. *)
Theorem stop_after_failed_start
  (backend : option string) (warn idle : bool) (t : trace) :
  let self := ScreenshotBridge_init backend warn idle in
  fst (detect_backend env backend t) = Ok None ->
  exists logs,
    start env self t = (Ok false, self, (t ++ logs)%list)
    /\ stop env self (t ++ logs)%list
       = (Ok tt, self, (t ++ logs ++ [Log INFO "Bridge stopped"])%list)
    /\ forallb is_log (logs ++ [Log INFO "Bridge stopped"]) = true.
Proof.
  intros self Hnone.
  destruct (detect_backend_logs env backend t) as (logs & E & Hlogs).
  exists (logs ++ [Log ERROR "No screenshot backend available!";
                   Log ERROR "Install one of: spectacle (KDE), grim (wlroots)"])%list.
  split; [| split].
  - unfold start, bindS at 1, getS. unfold bindS at 1, liftS at 1.
    subst self. cbn [backend_name ScreenshotBridge_init].
    destruct (detect_backend env backend t) as [r t'].
    cbn [fst snd] in Hnone, E. subst r t'.
    unfold bindS, liftS, retS, log, emit. cbn.
    now rewrite <- !app_assoc.
  - subst self. unfold stop, bindS, modifyS, getS, liftS, retS, log, emit. cbn.
    now rewrite <- !app_assoc.
  - rewrite !forallb_app, Hlogs. reflexivity.
Qed.

(** X17.  When a backend is detected and the library calls return,
    [start] returns true with the bus set and the running flag raised; it
    connects the bus and registers the Screenshot interface under its
    path and name.  With idle tracking enabled the idle monitor is created
    and its interface registered whether or not swayidle could be started;
    with idle tracking disabled the idle monitor field is left alone. *)
Theorem start_registers_services
  (self : ScreenshotBridge) (b : backend_cls) (t : trace) :
  fst (detect_backend env (backend_name self) t) = Ok (Some b) ->
  (forall t' c, lib_raises env t' c = None) ->
  exists s' es,
    start env self t = (Ok true, s', (t ++ es)%list)
    /\ _running s' = true
    /\ bus s' = Some SessionBus
    /\ In (Lib BusConnect) es
    /\ In (Lib (BusExport "/org/gnome/Shell/Screenshot" "org.gnome.Shell.Screenshot")) es
    /\ In (Lib (BusRequestName "org.gnome.Shell.Screenshot")) es
    /\ (enable_idle self = true ->
        idle_monitor s' <> None
        /\ In (Lib (BusExport "/org/gnome/Mutter/IdleMonitor/Core"
                      "org.gnome.Mutter.IdleMonitor")) es
        /\ In (Lib (BusRequestName "org.gnome.Mutter.IdleMonitor")) es)
    /\ (enable_idle self = false -> idle_monitor s' = idle_monitor self).
Proof.
  intros Hdet Hret.
  destruct (start_returns self b t Hdet Hret)
    as (mon & es & E & _ & Hc & He & Hn & Hidle & _).
  eexists; exists es. split; [exact E |].
  cbn [_running bus idle_monitor set_running set_idle_monitor set_bus].
  repeat split; trivial;
    try (apply Hidle; assumption).
  - match goal with EI : enable_idle self = true |- _ => rewrite EI end.
    discriminate.
  - intros EI. now rewrite EI.
Qed.

(** X18.  When the bus connection fails, [start] raises what the
    connection raised: the running flag is not raised and nothing is
    registered, but the bus field is already set. *)
Theorem start_connect_failure
  (self : ScreenshotBridge) (b : backend_cls) (e : exn) (t : trace) :
  fst (detect_backend env (backend_name self) t) = Ok (Some b) ->
  (forall t', lib_raises env t' BusNew = None) ->
  (forall t', lib_raises env t' BusConnect = Some e) ->
  exists logs,
    start env self t
    = (Raise e, set_bus (Some SessionBus) self,
       (t ++ logs ++ [Lib BusNew; Lib BusConnect])%list)
    /\ forallb is_log logs = true
    /\ _running (set_bus (Some SessionBus) self) = _running self.
Proof.
  intros Hdet Hnew Hconn.
  destruct (detect_backend_logs env (backend_name self) t) as (logs & E & Hlogs).
  exists logs. split; [| now split].
  unfold start, bindS at 1, getS. unfold bindS at 1, liftS at 1.
  destruct (detect_backend env (backend_name self) t) as [r t'].
  cbn [fst snd] in Hdet, E. subst r t'.
  unfold bindS, liftS, modifyS, retS, lib_call.
  rewrite Hnew. cbv beta iota zeta. rewrite Hconn.
  rewrite <- !app_assoc. reflexivity.
Qed.

(** X19.  The idle monitor is torn down before the bus: when its
    teardown raises, [stop] raises the same exception with the running
    flag cleared and [bus.disconnect()] is not called. *)
Theorem stop_monitor_failure_skips_disconnect
  (self : ScreenshotBridge) (mon : IdleMonitorInterface) (e : exn) (t : trace) :
  idle_monitor self = Some mon ->
  fst (stop_monitoring env mon t) = Raise e ->
  exists t',
    stop env self t = (Raise e, set_running false self, t')
    /\ disconnects t' = disconnects t.
Proof.
  intros Hmon Hraise.
  pose proof (stop_monitoring_no_disconnect mon t) as Hd.
  unfold stop, bindS, modifyS, getS, liftS.
  cbn [idle_monitor set_running]. rewrite Hmon.
  destruct (stop_monitoring env mon t) as [r t1]. cbn [fst snd] in Hraise, Hd.
  subst r. exists t1. now split.
Qed.

(** X20.  A [start] followed by a [stop], when a backend is detected and
    the library calls return: [stop] returns with the running flag
    cleared, every teardown call on the idle monitor comes before the one
    [bus.disconnect()], and that is the only disconnect since the start. *)
Theorem start_then_stop
  (self : ScreenshotBridge) (b : backend_cls) (t : trace) :
  fst (detect_backend env (backend_name self) t) = Ok (Some b) ->
  (forall t' c, lib_raises env t' c = None) ->
  exists s1 t1 monitor_calls,
    start env self t = (Ok true, s1, t1)
    /\ stop env s1 t1
       = (Ok tt, set_running false s1,
          (t1 ++ monitor_calls ++ [Lib BusDisconnect; Log INFO "Bridge stopped"])%list)
    /\ disconnects monitor_calls = 0
    /\ disconnects (t1 ++ monitor_calls
                      ++ [Lib BusDisconnect; Log INFO "Bridge stopped"])%list
       = disconnects t + 1.
Proof.
  intros Hdet Hret.
  destruct (start_returns self b t Hdet Hret) as (mon & es & E & Hd & _).
  set (s1 := set_running true
               (set_idle_monitor
                  (if enable_idle self then Some mon else idle_monitor self)
                  (set_bus (Some SessionBus) self))) in *.
  assert (Hstop := stop_returns s1 (t ++ es)%list (fun t' c _ => Hret t' c)).
  assert (Hev : exists monitor_calls,
             stop_events s1
             = (monitor_calls ++ [Lib BusDisconnect; Log INFO "Bridge stopped"])%list
             /\ disconnects monitor_calls = 0).
  { unfold stop_events. subst s1.
    cbn [bus idle_monitor set_running set_idle_monitor set_bus].
    destruct (if enable_idle self then Some mon else idle_monitor self)
      as [[la [pr |] [tk |]] |]; eexists; split; reflexivity. }
  destruct Hev as (monitor_calls & Hev & Hmc).
  exists s1, (t ++ es)%list, monitor_calls.
  rewrite Hev in Hstop.
  split; [exact E |]. split; [exact Hstop |]. split; [exact Hmc |].
  rewrite !disconnects_app, Hd, Hmc. cbn. lia.
Qed.

End BridgeMoreProofs.

Lemma stop_after_failed_start_witness :
  fst (detect_backend env_no_tools None []) = Ok None
  /\ exists logs,
       stop env_no_tools (ScreenshotBridge_init None false true) logs
       = (Ok tt, ScreenshotBridge_init None false true,
          (logs ++ [Log INFO "Bridge stopped"])%list).
Proof.
  split; [reflexivity |].
  destruct (stop_after_failed_start env_no_tools None false true [] eq_refl)
    as (logs & _ & E & _).
  exists logs. exact E.
Defined.

Lemma start_registers_services_witness :
  fst (detect_backend env_only_grim (backend_name (ScreenshotBridge_init None false true)) [])
  = Ok (Some GrimBackend)
  /\ (forall t' c, lib_raises env_only_grim t' c = None)
  /\ fst (fst (start env_only_grim (ScreenshotBridge_init None false true) []))
     = Ok true.
Proof.
  split; [reflexivity |]. split; [reflexivity |].
  destruct (start_registers_services env_only_grim
              (ScreenshotBridge_init None false true) GrimBackend []
              eq_refl (fun _ _ => eq_refl)) as (s' & es & E & _).
  rewrite E. reflexivity.
Defined.

Lemma start_connect_failure_witness :
  fst (detect_backend env_bus_down (backend_name (ScreenshotBridge_init None false true)) [])
  = Ok (Some SpectacleBackend)
  /\ (forall t', lib_raises env_bus_down t' BusNew = None)
  /\ (forall t', lib_raises env_bus_down t' BusConnect
                 = Some (OSError "[Errno 111] Connection refused"))
  /\ fst (fst (start env_bus_down (ScreenshotBridge_init None false true) []))
     = Raise (OSError "[Errno 111] Connection refused").
Proof.
  split; [reflexivity |]. split; [reflexivity |]. split; [reflexivity |].
  destruct (start_connect_failure env_bus_down
              (ScreenshotBridge_init None false true) SpectacleBackend
              (OSError "[Errno 111] Connection refused") []
              eq_refl (fun _ => eq_refl) (fun _ => eq_refl)) as (logs & E & _).
  rewrite E. reflexivity.
Defined.

Lemma stop_monitor_failure_skips_disconnect_witness :
  idle_monitor (set_running false monitoring_bridge) = Some (monitoring_since 0)
  /\ fst (stop_monitoring env_reaped_child (monitoring_since 0)
            [Lib ProcTerminate; Lib ProcWait])
     = Raise ProcessLookupError
  /\ disconnects (snd (stop env_reaped_child (set_running false monitoring_bridge)
                         [Lib ProcTerminate; Lib ProcWait])) = 0.
Proof.
  split; [reflexivity |]. split; [reflexivity |].
  destruct (stop_monitor_failure_skips_disconnect env_reaped_child
              (set_running false monitoring_bridge) (monitoring_since 0)
              ProcessLookupError [Lib ProcTerminate; Lib ProcWait]
              eq_refl eq_refl) as (t' & E & Hd).
  rewrite E. exact Hd.
Defined.

Lemma start_then_stop_witness :
  fst (detect_backend env_all_tools (backend_name (ScreenshotBridge_init None false true)) [])
  = Ok (Some SpectacleBackend)
  /\ (forall t' c, lib_raises env_all_tools t' c = None)
  /\ exists s1 t1,
       start env_all_tools (ScreenshotBridge_init None false true) [] = (Ok true, s1, t1)
       /\ disconnects (snd (stop env_all_tools s1 t1)) = 1.
Proof.
  split; [reflexivity |]. split; [reflexivity |].
  destruct (start_then_stop env_all_tools (ScreenshotBridge_init None false true)
              SpectacleBackend [] eq_refl (fun _ _ => eq_refl))
    as (s1 & t1 & calls & E1 & E2 & _ & Hd).
  exists s1, t1. split; [exact E1 |]. rewrite E2. exact Hd.
Defined.

(** * The flags of a window capture *)


